(** * medicly-doc-processor: a shallow embedding of the extraction pipeline

    The development follows the JavaScript sources:
    - [src/services/docProcessor.js]: [extractData] (line classification,
      SEO block parsing, validation) and the markup post-processing of
      [generateAndProcessHtml];
    - the earlier processor variant: [postProcessHtml] and the HTML body
      boundary resolution of [processDocxFile];
    - [src/services/database.js]: [insertPost];
    - [process-docs.js]: the per-file loop of [main].

    JavaScript strings are sequences of UTF-16 code units; they are modelled
    as lists of [N].  Indices are [Z], with [-1] for "not found", as in the
    source. *)

From stdpp Require Import gmap.
From Stdlib Require Import Ascii String.
From Stdlib Require Import List ZArith NArith Lia Bool.
Import ListNotations.

Local Open Scope Z_scope.

(** ** Strings *)

Module Str.

Abbreviation str := (list N).

(** A string literal of the source, as code units. *)
Definition lit (s : string) : str :=
  List.map N_of_ascii (list_ascii_of_string s).

Definition LF : N := 10%N.
Definition SP : N := 32%N.

(** [String.prototype.trim] removes WhiteSpace and LineTerminator code
    points (ECMA-262, 22.1.3.32). *)
Definition isWhiteSpace (c : N) : bool :=
  ((9 <=? c) && (c <=? 13) || (c =? 32) || (c =? 160) || (c =? 5760)
   || (8192 <=? c) && (c <=? 8202) || (c =? 8232) || (c =? 8233)
   || (c =? 8239) || (c =? 8287) || (c =? 12288) || (c =? 65279))%N.

Fixpoint trimStart (s : str) : str :=
  match s with
  | c :: s' => if isWhiteSpace c then trimStart s' else s
  | [] => []
  end.

Definition trimEnd (s : str) : str := rev (trimStart (rev s)).

Definition trim (s : str) : str := trimEnd (trimStart s).

Definition isEmpty (s : str) : bool :=
  match s with [] => true | _ => false end.

(** [s.split('\n')] *)
Fixpoint splitLines (s : str) : list str :=
  match s with
  | [] => [[]]
  | c :: s' =>
      if (c =? LF)%N then [] :: splitLines s'
      else match splitLines s' with
           | l :: ls => (c :: l) :: ls
           | [] => [[c]]
           end
  end.

(** [parts.join(sep)] *)
Fixpoint join (sep : str) (parts : list str) : str :=
  match parts with
  | [] => []
  | [p] => p
  | p :: ps => p ++ sep ++ join sep ps
  end.

(** Case folding of the [i] flag (Canonicalize without the [u] flag): a
    code unit is upper-cased unless that would turn a non-ASCII unit into
    an ASCII one.  Every pattern of the sources is ASCII, so only the
    ASCII letters can be identified with one another. *)
Definition canon (c : N) : N :=
  if ((97 <=? c) && (c <=? 122))%N then (c - 32)%N else c.

Fixpoint startsWith (p s : str) : bool :=
  match p, s with
  | [], _ => true
  | a :: p', b :: s' => (a =? b)%N && startsWith p' s'
  | _ :: _, [] => false
  end.

Fixpoint startsWithCI (p s : str) : bool :=
  match p, s with
  | [], _ => true
  | a :: p', b :: s' => (canon a =? canon b)%N && startsWithCI p' s'
  | _ :: _, [] => false
  end.

(** Scan for [needle] in the suffix [s] that starts at offset [i]. *)
Fixpoint indexOfAux (needle s : str) (i : nat) : Z :=
  match s with
  | [] => if startsWith needle [] then Z.of_nat i else -1
  | _ :: s' =>
      if startsWith needle s then Z.of_nat i
      else indexOfAux needle s' (S i)
  end.

Definition clamp (s : str) (i : Z) : nat :=
  Nat.min (Z.to_nat i) (length s).

(** [s.indexOf(needle, from)] *)
Definition indexOfFrom (s needle : str) (from : Z) : Z :=
  let k := clamp s from in indexOfAux needle (skipn k s) k.

(** [s.indexOf(needle)] *)
Definition indexOf (s needle : str) : Z := indexOfFrom s needle 0.

(** [s.includes(needle)] *)
Definition includes (s needle : str) : bool :=
  negb (indexOf s needle =? -1).

Fixpoint lastIndexOfAux (needle s : str) (i from : nat) (acc : Z) : Z :=
  let acc' :=
    if (i <=? from)%nat && startsWith needle s then Z.of_nat i else acc in
  match s with
  | [] => acc'
  | _ :: s' => lastIndexOfAux needle s' (S i) from acc'
  end.

(** [s.lastIndexOf(needle, from)]: the last occurrence starting at an
    index [<= from]. *)
Definition lastIndexOfFrom (s needle : str) (from : Z) : Z :=
  lastIndexOfAux needle s 0 (Z.to_nat from) (-1).

(** [s.lastIndexOf(needle)] *)
Definition lastIndexOf (s needle : str) : Z :=
  lastIndexOfAux needle s 0 (length s) (-1).

(** [s.substring(a, b)]: both ends are clamped to [0, length], and
    swapped when [a > b]. *)
Definition substring (s : str) (a b : Z) : str :=
  let a' := clamp s a in
  let b' := clamp s b in
  firstn (Nat.max a' b' - Nat.min a' b') (skipn (Nat.min a' b') s).

(** [s.substring(a)] *)
Definition substringFrom (s : str) (a : Z) : str :=
  skipn (clamp s a) s.

(** [arr.findIndex(p)] *)
Fixpoint findIndexAux {A} (p : A -> bool) (l : list A) (i : nat) : Z :=
  match l with
  | [] => -1
  | x :: l' => if p x then Z.of_nat i else findIndexAux p l' (S i)
  end.

Definition findIndex {A} (p : A -> bool) (l : list A) : Z :=
  findIndexAux p l 0.

(** The regular expressions of the parsers all have the shape
    [/^(a1|a2|...)suffix/i]: an anchored alternation of literal labels
    followed by a literal suffix. *)
Record Pattern := { alts : list str; suffix : str }.

Definition matchedLabel (re : Pattern) (s : str) : option str :=
  List.find (fun a => startsWithCI (a ++ suffix re) s) (alts re).

(** [re.test(s)] *)
Definition test (re : Pattern) (s : str) : bool :=
  match matchedLabel re s with Some _ => true | None => false end.

(** [s.replace(re, '')]: the matched prefix is removed; without a match
    the string is returned as it is. *)
Definition stripMatch (re : Pattern) (s : str) : str :=
  match matchedLabel re s with
  | Some a => skipn (length (a ++ suffix re)) s
  | None => s
  end.

End Str.
Import Str.

(** ** Thrown errors *)

Inductive Result (A : Type) : Type :=
| Throw (message : str)
| Return (value : A).
Arguments Throw {A} message.
Arguments Return {A} value.

(** ** [extractData] (src/services/docProcessor.js) *)

Module DocProcessor.

Record Metadata := {
  title : option str;
  author : option str;
  slug : option str;
  metaTitle : option str;
  metaDescription : option str;
  keywords : option str
}.

(** [!metadata.field]: the property is undefined or the empty string. *)
Definition missing (field : option str) : bool :=
  match field with
  | None => true
  | Some s => isEmpty s
  end.

Definition seoMarkers : Pattern :=
  {| alts := [lit "SEO & Meta Details"; lit "Blog Post:"; lit "Meta Data";
              lit "1. Meta Data"; lit "Meta Title:"; lit "Slug:";
              lit "URL Slug:"];
     suffix := [] |}.

Definition bylinePattern : Pattern :=
  {| alts := [lit "By Dr."]; suffix := [] |}.

Definition slugPattern : Pattern :=
  {| alts := [lit "Slug"; lit "Slugx"; lit "URL Slug";
              lit "Suggested URL Slug"];
     suffix := lit ":" |}.

Definition metaTitlePattern : Pattern :=
  {| alts := [lit "Meta Title"; lit "Optimized Meta Title"];
     suffix := lit ":" |}.

Definition metaDescriptionPattern : Pattern :=
  {| alts := [lit "Meta Description"; lit "Compelling Meta Description"];
     suffix := lit ":" |}.

Definition keywordsPattern : Pattern :=
  {| alts := [lit "Primary Keywords"]; suffix := lit ":" |}.

(** [rawText.split('\n').filter(line => line.trim() !== '')] *)
Definition linesOf (rawText : str) : list str :=
  List.filter (fun line => negb (isEmpty (trim line))) (splitLines rawText).

(** State of the first loop: the two fields it may write, the
    [titleFound] flag and [contentLines]. *)
Record TopState := {
  tsAuthor : option str;
  tsTitle : option str;
  titleFound : bool;
  contentLines : list str
}.

Definition topInit : TopState :=
  {| tsAuthor := None; tsTitle := None; titleFound := false;
     contentLines := [] |}.

(** One iteration of the first loop, on [lines[i]]. *)
Definition topStep (st : TopState) (rawLine : str) : TopState :=
  let line := trim rawLine in
  if test bylinePattern line then
    {| tsAuthor := Some line; tsTitle := tsTitle st;
       titleFound := titleFound st; contentLines := contentLines st |}
  else if negb (titleFound st) && (20 <? Z.of_nat (length line))
          && negb (includes line (lit "Medically reviewed")) then
    {| tsAuthor := tsAuthor st; tsTitle := Some line;
       titleFound := true; contentLines := contentLines st |}
  else if titleFound st then
    {| tsAuthor := tsAuthor st; tsTitle := tsTitle st;
       titleFound := titleFound st;
       contentLines := contentLines st ++ [rawLine] |}
  else st.

(** State of the SEO block loop. *)
Record SeoState := {
  ssSlug : option str;
  ssMetaTitle : option str;
  ssKeywords : option str;
  descriptionLines : list str;
  isParsingDescription : bool
}.

Definition seoInit : SeoState :=
  {| ssSlug := None; ssMetaTitle := None; ssKeywords := None;
     descriptionLines := []; isParsingDescription := false |}.

(** The body of [seoLines.forEach]. *)
Definition seoStep (st : SeoState) (line : str) : SeoState :=
  let trimmedLine := trim line in
  if test slugPattern trimmedLine then
    {| ssSlug := Some (trim (stripMatch slugPattern trimmedLine));
       ssMetaTitle := ssMetaTitle st; ssKeywords := ssKeywords st;
       descriptionLines := descriptionLines st;
       isParsingDescription := false |}
  else if test metaTitlePattern trimmedLine then
    {| ssSlug := ssSlug st;
       ssMetaTitle := Some (trim (stripMatch metaTitlePattern trimmedLine));
       ssKeywords := ssKeywords st;
       descriptionLines := descriptionLines st;
       isParsingDescription := false |}
  else if test metaDescriptionPattern trimmedLine then
    {| ssSlug := ssSlug st; ssMetaTitle := ssMetaTitle st;
       ssKeywords := ssKeywords st;
       descriptionLines :=
         descriptionLines st
         ++ [trim (stripMatch metaDescriptionPattern trimmedLine)];
       isParsingDescription := true |}
  else if test keywordsPattern trimmedLine then
    {| ssSlug := ssSlug st; ssMetaTitle := ssMetaTitle st;
       ssKeywords := Some (trim (stripMatch keywordsPattern trimmedLine));
       descriptionLines := descriptionLines st;
       isParsingDescription := false |}
  else if isParsingDescription st then
    {| ssSlug := ssSlug st; ssMetaTitle := ssMetaTitle st;
       ssKeywords := ssKeywords st;
       descriptionLines := descriptionLines st ++ [trimmedLine];
       isParsingDescription := true |}
  else st.

Definition parseSeo (seoLines : list str) : SeoState :=
  fold_left seoStep seoLines seoInit.

(** [descriptionLines.join(' ').trim()], when there is any line. *)
Definition assembleDescription (ls : list str) : option str :=
  match ls with
  | [] => None
  | _ => Some (trim (join [SP] ls))
  end.

Definition seoBlockStartIndex (lines : list str) : Z :=
  findIndex (test seoMarkers) lines.

(** The first loop, over the lines before the SEO block (all the lines
    when there is none). *)
Definition parseTop (lines : list str) : TopState :=
  let start := seoBlockStartIndex lines in
  let bound := if start =? -1 then Z.of_nat (length lines) else start in
  fold_left topStep (firstn (Z.to_nat bound) lines) topInit.

(** The SEO block loop; it is skipped when no marker line was found. *)
Definition parseBlock (lines : list str) : SeoState :=
  let start := seoBlockStartIndex lines in
  if start =? -1 then seoInit
  else parseSeo (skipn (Z.to_nat start) lines).

(** The [metadata] object as it stands when validation begins. *)
Definition collect (rawText : str) : Metadata :=
  let lines := linesOf rawText in
  let top := parseTop lines in
  let seo := parseBlock lines in
  {| title := tsTitle top;
     author := tsAuthor top;
     slug := ssSlug seo;
     metaTitle := ssMetaTitle seo;
     metaDescription := assembleDescription (descriptionLines seo);
     keywords := ssKeywords seo |}.

Definition titleError (filePath : str) : str :=
  lit "Title could not be determined for file: " ++ filePath.
Definition slugError (filePath : str) : str :=
  lit "Slug could not be found for file: " ++ filePath.
Definition metaTitleError (filePath : str) : str :=
  lit "Meta Title could not be found for file: " ++ filePath.

Definition extractData (rawText filePath : str) : Result (Metadata * str) :=
  let metadata := collect rawText in
  if missing (title metadata) then Throw (titleError filePath)
  else if missing (slug metadata) then Throw (slugError filePath)
  else if missing (metaTitle metadata) then Throw (metaTitleError filePath)
  else
    let content :=
      join [LF] (contentLines (parseTop (linesOf rawText))) in
    Return (metadata, content).

End DocProcessor.


(** ** HTML body boundaries (the [processDocxFile] variants that cut the
    body out of the rendered HTML) *)

Module BodyResolver.

Definition endMarkers : list str :=
  [ lit "Always consult your healthcare provider for personal medical concerns.";
    lit "Okay, I have the full, updated blog post content.";
    lit "[Discover All Medicly Telehealth Services Here!]";
    [226; 339; 8230]%N ++ lit " SEO & Meta Data for:";
    lit "Blog Post: How to Quickly Obtain an Online Medical Certificate";
    lit "Meta Title:" ].

Definition startError : str :=
  lit "Could not find the start of the content after the title.".
Definition boundaryError : str :=
  lit "Could not determine content boundaries. No known end pattern matched.".

(** [contentStartIndex] after the first [if]; the [else] branch throws. *)
Definition contentStart (html title : str) : Result Z :=
  let contentStartIndex := indexOf html title in
  if negb (contentStartIndex =? -1) then
    let closingTagIndex :=
      indexOfFrom html (lit "</")
        (contentStartIndex + Z.of_nat (length title)) in
    if negb (closingTagIndex =? -1) then
      let endOfClosingTag := indexOfFrom html (lit ">") closingTagIndex in
      if negb (endOfClosingTag =? -1) then Return (endOfClosingTag + 1)
      else Return contentStartIndex
    else Return contentStartIndex
  else Throw startError.

(** Where the body ends for the marker found at [markerIndex]: the index
    of the last ['<'] at or before it. *)
Definition openingTagBefore (html : str) (markerIndex : Z) : Z :=
  lastIndexOfFrom html (lit "<") markerIndex.

(** The [for (const marker of endMarkers)] loop; the result is the value
    of [content] when the loop is left (the empty string when no marker
    applied). *)
Fixpoint scanEndMarkers (html : str) (contentStartIndex : Z)
    (markers : list str) : str :=
  match markers with
  | [] => []
  | marker :: rest =>
      let contentEndIndex := lastIndexOf html marker in
      if contentEndIndex >? contentStartIndex then
        let openingTagIndex := openingTagBefore html contentEndIndex in
        if negb (openingTagIndex =? -1) then
          trim (substring html contentStartIndex openingTagIndex)
        else scanEndMarkers html contentStartIndex rest
      else scanEndMarkers html contentStartIndex rest
  end.

(** The fallback on the first ["Meta Title:"]. *)
Definition fallbackContent (html : str) (contentStartIndex : Z) : str :=
  let seoBlockHtmlStart := indexOf html (lit "Meta Title:") in
  if seoBlockHtmlStart >? contentStartIndex then
    let openingTagIndex := openingTagBefore html seoBlockHtmlStart in
    if negb (openingTagIndex =? -1) then
      trim (substring html contentStartIndex openingTagIndex)
    else []
  else [].

(** The body of the rendered HTML, before post-processing. *)
Definition resolveBody (html title : str) : Result str :=
  match contentStart html title with
  | Throw e => Throw e
  | Return contentStartIndex =>
      let content := scanEndMarkers html contentStartIndex endMarkers in
      if isEmpty content then
        let content := fallbackContent html contentStartIndex in
        if isEmpty content then Throw boundaryError
        else Return content
      else Return content
  end.

(** The later variant (the one paired with [finalParser]). *)
Definition seoBlockMarkers : list str :=
  [lit "Meta Title:"; lit "SEO & Meta Details"; lit "Blog Post:";
   lit "1. Meta Data"].

Definition titleNotInHtml : str :=
  lit "Could not find title in HTML to determine content start.".
Definition noMainContent : str :=
  lit "Could not extract the main content from the document.".

Fixpoint findContentEnd (html : str) (contentStartIndex : Z)
    (markers : list str) : Z :=
  match markers with
  | [] => -1
  | marker :: rest =>
      let markerIndex := lastIndexOf html marker in
      if markerIndex >? contentStartIndex then markerIndex
      else findContentEnd html contentStartIndex rest
  end.

Definition resolveBodyFinal (html title : str) : Result str :=
  let contentStartIndex := indexOf html title in
  if negb (contentStartIndex =? -1) then
    let endOfTitleTag := indexOfFrom html (lit ">") contentStartIndex in
    let contentStartIndex :=
      if negb (endOfTitleTag =? -1) then endOfTitleTag + 1
      else contentStartIndex in
    let contentEndIndex :=
      findContentEnd html contentStartIndex seoBlockMarkers in
    let html :=
      if negb (contentEndIndex =? -1) then
        let openingTagIndex := openingTagBefore html contentEndIndex in
        if negb (openingTagIndex =? -1) then substring html 0 openingTagIndex
        else html
      else html in
    let content := trim (substringFrom html contentStartIndex) in
    if isEmpty content then Throw noMainContent else Return content
  else Throw titleNotInHtml.

End BodyResolver.


(** ** Markup post-processing *)

Module Markup.

Definition DQ : N := 34%N.
Definition LT : N := 60%N.
Definition GT : N := 62%N.

(** [s.replace(re, ...)] with the [g] flag.  [matchAt] is given the text
    before the current position (reversed) and the text from it on, and
    answers with the length of the match and the text that replaces it.
    After a match the scan resumes behind it; an empty match copies one
    code unit and resumes behind that. *)
Fixpoint replaceAllAux (matchAt : str -> str -> option (nat * str))
    (before s : str) (skip : nat) : str :=
  match s with
  | [] =>
      match skip with
      | O => match matchAt before [] with
             | Some (_, r) => r
             | None => []
             end
      | S _ => []
      end
  | c :: s' =>
      match skip with
      | S k => replaceAllAux matchAt (c :: before) s' k
      | O =>
          match matchAt before s with
          | Some (O, r) => r ++ c :: replaceAllAux matchAt (c :: before) s' 0
          | Some (S k, r) => r ++ replaceAllAux matchAt (c :: before) s' k
          | None => c :: replaceAllAux matchAt (c :: before) s' 0
          end
      end
  end.

Definition replaceAll (matchAt : str -> str -> option (nat * str))
    (s : str) : str :=
  replaceAllAux matchAt [] s 0.

(** Reading backwards from just before a ['>']: [[^>]*], then [a] (under
    the [i] flag) and ['<']. *)
Fixpoint anchorOpenBackwards (before : str) : bool :=
  match before with
  | [] => false
  | c :: rest =>
      ((canon c =? canon 97)%N
       && match rest with d :: _ => (d =? LT)%N | [] => false end)
      || (negb (c =? GT)%N && anchorOpenBackwards rest)
  end.

(** The lookbehind [(?<!<a[^>]*>)] fails exactly when the text before the
    position ends with an opening anchor tag. *)
Definition afterAnchorOpen (before : str) : bool :=
  match before with
  | c :: rest => (c =? GT)%N && anchorOpenBackwards rest
  | [] => false
  end.

(** [(?<!<a[^>]*>)phrase(?!<\/a>)] with flags [gi], for a phrase of
    letters and spaces (as all configured phrases are). *)
Definition phraseMatchesAt (phrase before s : str) : bool :=
  negb (afterAnchorOpen before)
  && startsWithCI phrase s
  && negb (startsWithCI (lit "</a>") (skipn (length phrase) s)).

Definition anchor (url text : str) : str :=
  lit "<a href=" ++ [DQ] ++ url ++ [DQ] ++ lit ">" ++ text ++ lit "</a>".

Record InternalLink := { phrases : list str; url : str }.

(** The inner [forEach] of [generateAndProcessHtml]: the replacement
    carries the phrase as configured. *)
Definition linkPhrase (url : str) (html phrase : str) : str :=
  replaceAll
    (fun before s =>
       if phraseMatchesAt phrase before s
       then Some (length phrase, anchor url phrase) else None)
    html.

Definition wrapLinks (rules : list InternalLink) (html : str) : str :=
  fold_left (fun h link => fold_left (linkPhrase (url link)) (phrases link) h)
    rules html.

Definition isLineTerminator (c : N) : bool :=
  ((c =? 10) || (c =? 13) || (c =? 8232) || (c =? 8233))%N.

(** A literal part of a pattern, case-sensitive, where [None] stands for
    an unescaped [.]; gives the rest of the text after the match. *)
Fixpoint matchLiteral (p : list (option N)) (s : str) : option str :=
  match p, s with
  | [], _ => Some s
  | Some a :: p', b :: s' =>
      if (a =? b)%N then matchLiteral p' s' else None
  | None :: p', b :: s' =>
      if isLineTerminator b then None else matchLiteral p' s'
  | _ :: _, [] => None
  end.

Fixpoint skipNonQuotes (s : str) : str :=
  match s with
  | c :: s' => if (c =? DQ)%N then s else skipNonQuotes s'
  | [] => []
  end.

(** A match of [prefix], then characters other than the double quote,
    then a double quote and ['>']; the replacement puts the [blog_cta]
    class attribute before the closing ['>']. *)
Definition tagAt (prefix : list (option N)) (s : str)
    : option (nat * str) :=
  match matchLiteral prefix s with
  | Some s1 =>
      match skipNonQuotes s1 with
      | q :: g :: s2 =>
          if ((q =? DQ) && (g =? GT))%N then
            let n := (length s - length s2)%nat in
            Some (n, firstn (n - 1) s
                     ++ lit " class=" ++ [DQ] ++ lit "blog_cta" ++ [DQ]
                     ++ lit ">")
          else None
      | _ => None
      end
  | None => None
  end.

Definition chars (s : str) : list (option N) := List.map Some s.

(** The prefix of the call-to-action pattern: an anchor whose [href]
    opens with the site's base URL, whose two dots are unescaped. *)
Definition ctaPrefix : list (option N) :=
  chars (lit "<a href=") ++ [Some DQ] ++ chars (lit "https://medicly")
  ++ [None] ++ chars (lit "com") ++ [None] ++ chars (lit "au/").

Definition tagCta (html : str) : str :=
  replaceAll (fun _ s => tagAt ctaPrefix s) html.

(** The post-processing of [generateAndProcessHtml], applied to the
    converter's output, with the link table as a parameter. *)
Definition postProcess (html : str) (rules : list InternalLink) : str :=
  tagCta (wrapLinks rules html).

Definition internalLinks : list InternalLink :=
  [ {| phrases := [lit "online prescription"; lit "online prescriptions"];
       url := lit "https://medicly.com.au/prescriptions" |};
    {| phrases := [lit "doctor consultation";
                   lit "online doctor consultation"];
       url := lit "https://medicly.com.au/doctor-consultation" |};
    {| phrases := [lit "certificates"];
       url := lit "https://medicly.com.au/certificates" |} ].

(** [postProcessHtml] of the earlier variants: one phrase per entry, the
    replacement keeps the matched text ([$1]), and the class is added to
    anchors that open a [<p><strong>]. *)
Definition linkText (html : str) (link : str * str) : str :=
  replaceAll
    (fun before s =>
       if phraseMatchesAt (fst link) before s
       then Some (length (fst link),
                  anchor (snd link) (firstn (length (fst link)) s))
       else None)
    html.

Definition internalLinksHtml : list (str * str) :=
  [ (lit "online prescription", lit "https://medicly.com.au/prescriptions");
    (lit "doctor consultation",
     lit "https://medicly.com.au/doctor-consultation");
    (lit "online doctor consultation",
     lit "https://medicly.com.au/doctor-consultation");
    (lit "certificates", lit "https://medicly.com.au/certificates") ].

Definition strongPrefix : list (option N) :=
  chars (lit "<p><strong><a href=") ++ [Some DQ].

Definition postProcessHtml (html : str) : str :=
  replaceAll (fun _ s => tagAt strongPrefix s)
    (fold_left linkText internalLinksHtml html).

End Markup.


(** ** Persistence ([insertPost]) and the per-file loop of [main] *)

Module Orchestrator.

(** The object handed to [insertPost]; the properties [main] never sets
    are [undefined] and stored as NULL. *)
Record PostData := {
  pdTitle : str;
  pdSlug : str;
  pdCategory : option str;
  pdExcerpt : option str;
  pdContent : str;
  pdImage : option str;
  pdMetaTitle : str;
  pdMetaDescription : option str;
  pdKeywords : option str;
  pdAuthor : option str;
  pdImageTitle : option str
}.

Record Row := { rowId : N; rowData : PostData }.

(** The [blogs] table: its rows by slug (the conflict target of the
    insert statement), and the identifier the next new row gets. *)
Record Database := { blogs : gmap str Row; nextId : N }.

(** [INSERT ... ON CONFLICT (slug) DO NOTHING RETURNING id, slug],
    followed by [return res.rows[0]]: [None] stands for [undefined]. *)
Definition insertPost (d : Database) (postData : PostData)
    : Database * option (N * str) :=
  match blogs d !! pdSlug postData with
  | Some _ => (d, None)
  | None =>
      ({| blogs := <[pdSlug postData :=
                      {| rowId := nextId d; rowData := postData |}]>
                    (blogs d);
          nextId := N.succ (nextId d) |},
       Some (nextId d, pdSlug postData))
  end.

Inductive ConsoleLine :=
| Processing (file : str)
| Success (slug : str) (id : N)
| Moved (file : str)
| Skipped (slug : str)
| ErrorProcessing (file message : str).

Record World := {
  database : Database;
  docDirectory : list str;
  sentDirectory : list str;
  console : list ConsoleLine;
  errorLog : list (str * str)
}.

Definition say (w : World) (line : ConsoleLine) : World :=
  {| database := database w; docDirectory := docDirectory w;
     sentDirectory := sentDirectory w; console := console w ++ [line];
     errorLog := errorLog w |}.

(** [logError(fileName, message)]: a console line and a line appended to
    the log file. *)
Definition logError (w : World) (fileName message : str) : World :=
  let w := say w (ErrorProcessing fileName message) in
  {| database := database w; docDirectory := docDirectory w;
     sentDirectory := sentDirectory w; console := console w;
     errorLog := errorLog w ++ [(fileName, message)] |}.

Definition strEqb (a b : str) : bool := bool_decide (a = b).

(** [fs.rename] from the inbound directory to the sent directory. *)
Definition rename (w : World) (file : str) : World :=
  {| database := database w;
     docDirectory :=
       List.filter (fun f => negb (strEqb f file)) (docDirectory w);
     sentDirectory := sentDirectory w ++ [file];
     console := console w; errorLog := errorLog w |}.

Definition withDatabase (w : World) (d : Database) : World :=
  {| database := d; docDirectory := docDirectory w;
     sentDirectory := sentDirectory w; console := console w;
     errorLog := errorLog w |}.

Section Main.

(** The document processor, as [main] sees it: per file, a thrown
    error or the post data. *)
Variable processDocxFile : str -> Result PostData.

(** The body of [for (const file of docxFiles)]. *)
Definition processFile (w : World) (file : str) : World :=
  let w := say w (Processing file) in
  match processDocxFile file with
  | Throw message => logError w file message
  | Return postData =>
      let (d, result) := insertPost (database w) postData in
      let w := withDatabase w d in
      match result with
      | Some (id, _) =>
          let w := say w (Success (pdSlug postData) id) in
          let w := rename w file in
          say w (Moved file)
      | None => say w (Skipped (pdSlug postData))
      end
  end.

Definition processAll (w : World) (docxFiles : list str) : World :=
  fold_left processFile docxFiles w.

End Main.

End Orchestrator.

(** ** Vocabulary of the statements, and sample documents *)

Module Samples.
Import DocProcessor Markup Orchestrator.

(** A line that can become the title: longer than 20, no byline, and
    without the reviewer note. *)
Definition isTitleLine (line : str) : bool :=
  (20 <? Z.of_nat (length line))
  && negb (test bylinePattern line)
  && negb (includes line (lit "Medically reviewed")).

Definition isByline (line : str) : bool := test bylinePattern line.

Definition noMarker (line : str) : Prop := test seoMarkers line = false.

(** The four kinds of field lines of the SEO block, and the value a
    field line carries: the label stripped, the remainder trimmed. *)
Definition isSlugLine (line : str) : bool := test slugPattern (trim line).
Definition isMetaTitleLine (line : str) : bool :=
  test metaTitlePattern (trim line).
Definition isMetaDescriptionLine (line : str) : bool :=
  test metaDescriptionPattern (trim line).
Definition isKeywordsLine (line : str) : bool :=
  test keywordsPattern (trim line).

Definition isFieldLine (line : str) : bool :=
  isSlugLine line || isMetaTitleLine line || isMetaDescriptionLine line
  || isKeywordsLine line.

Definition fieldValue (re : Pattern) (line : str) : str :=
  trim (stripMatch re (trim line)).

(** The value of the last line of [seoLines] that is a field line of
    the given kind. *)
Definition lastValue (isLine : str -> bool) (re : Pattern)
    (seoLines : list str) : option str :=
  match List.find isLine (rev seoLines) with
  | Some line => Some (fieldValue re line)
  | None => None
  end.

(** Two literal prefixes that some string can both start with, up to
    case. *)
Fixpoint compatible (p q : str) : bool :=
  match p, q with
  | a :: p', b :: q' => (canon a =? canon b)%N && compatible p' q'
  | _, _ => true
  end.

Definition disjointPatterns (p q : Pattern) : bool :=
  forallb (fun a =>
    forallb (fun b => negb (compatible (a ++ suffix p) (b ++ suffix q)))
      (alts q)) (alts p).

(** What ends the capture of a description: the end of the block, or
    a field line of another kind. *)
Definition closesCapture (rest : list str) : bool :=
  match rest with
  | [] => true
  | l :: _ => isSlugLine l || isMetaTitleLine l || isKeywordsLine l
  end.

Definition noWsStart (s : str) : bool :=
  match s with
  | [] => true
  | c :: _ => negb (isWhiteSpace c)
  end.

Definition noLF (s : str) : Prop := ~ In LF s.

Definition fileName : str := lit "doc/post.docx".

Definition article : str := lit "Draft v2
By Dr. Alice Example
Medically reviewed by the clinical team
A sufficiently long article title here
First paragraph of the article body text.
Slug: my-slug
Meta Title: My Meta
Meta Description: Part one.
continued sentence.
Primary Keywords: a, b".

Definition articleBefore : list str :=
  [lit "Draft v2"; lit "By Dr. Alice Example";
   lit "Medically reviewed by the clinical team";
   lit "A sufficiently long article title here";
   lit "First paragraph of the article body text."].

Definition articleBlock : list str :=
  [lit "Slug: my-slug"; lit "Meta Title: My Meta";
   lit "Meta Description: Part one."; lit "continued sentence.";
   lit "Primary Keywords: a, b"].

Definition twoBylines : str := lit "By Dr. Alice Example
By Dr. Bob Sample
A sufficiently long article title here
Slug: my-slug
Meta Title: My Meta".

Definition repeated : str := lit "A sufficiently long article title here
Slug: first
Meta Title: First
Meta Description: one
Primary Keywords: k1
Slug: second
Meta Title: Second
Meta Description: two
Primary Keywords: k2".

Definition repeatedBlock : list str :=
  [lit "Slug: first"; lit "Meta Title: First"; lit "Meta Description: one";
   lit "Primary Keywords: k1"; lit "Slug: second";
   lit "Meta Title: Second"; lit "Meta Description: two";
   lit "Primary Keywords: k2"].

Definition bare : str := lit "A sufficiently long article title here
Slug: my-slug
Meta Title: My Meta".

Definition shortNote : str := lit "Short note.".

Definition renderedHtml : str :=
  lit "<h1>My Title</h1><p>Body text.</p><p>Meta Title: X</p>".

Definition certificatesHtml : str := lit "<p>certificates</p>".

(** An anchor the converter rendered from a hyperlink of the document. *)
Definition linkedHtml : str :=
  lit "<p>See " ++ anchor (lit "https://medicly.com.au/certificates")
                     (lit "our page") ++ lit "</p>".

Definition ctaClass : str :=
  lit " class=" ++ [DQ] ++ lit "blog_cta" ++ [DQ].

(** An anchor with the call-to-action class. *)
Definition ctaAnchor (url text : str) : str :=
  lit "<a href=" ++ [DQ] ++ url ++ [DQ] ++ ctaClass ++ lit ">" ++ text
  ++ lit "</a>".

(** [needle] occurs in [s] as a literal substring. *)
Definition occursIn (needle s : str) : Prop :=
  exists pre post, s = pre ++ needle ++ post.

Definition samplePost : PostData :=
  {| pdTitle := lit "A sufficiently long article title here";
     pdSlug := lit "my-slug"; pdCategory := None; pdExcerpt := None;
     pdContent := lit "<p>Body text.</p>"; pdImage := None;
     pdMetaTitle := lit "My Meta"; pdMetaDescription := None;
     pdKeywords := None; pdAuthor := None; pdImageTitle := None |}.

Definition otherPost : PostData :=
  {| pdTitle := lit "Another sufficiently long article title";
     pdSlug := lit "other-slug"; pdCategory := None; pdExcerpt := None;
     pdContent := lit "<p>Other.</p>"; pdImage := None;
     pdMetaTitle := lit "Other"; pdMetaDescription := None;
     pdKeywords := None; pdAuthor := None; pdImageTitle := None |}.

(** A run in which [a.docx] yields a post whose slug is already
    stored, and [b.docx] a new one. *)
Definition sampleProcessor (file : str) : Result PostData :=
  if bool_decide (file = lit "a.docx") then Return samplePost
  else Return otherPost.

Definition sampleWorld : World :=
  {| database :=
       {| blogs := {[ lit "my-slug" :=
                        {| rowId := 7%N; rowData := samplePost |} ]};
          nextId := 8%N |};
     docDirectory := [lit "a.docx"; lit "b.docx"];
     sentDirectory := []; console := []; errorLog := [] |}.

Definition noBlock : str := lit "A sufficiently long article title here
Body paragraph without any metadata.".

End Samples.
Import Samples.

(** ** The earlier parsers ([parseTopMatter], [parseSeoMetadata],
    [finalParser]) *)

Module Variants.
Import DocProcessor Markup.

Definition nonTitlePatterns : list Pattern :=
  [ {| alts := [lit "By Dr. Gurbakhshish"]; suffix := [] |};
    {| alts := [lit "Medically reviewed"]; suffix := [] |} ].

(** The [for (const line of lines)] loop of [parseTopMatter], left at
    the first title. *)
Fixpoint findTopTitle (lines : list str) : option str :=
  match lines with
  | [] => None
  | line :: rest =>
      let trimmedLine := trim line in
      if isEmpty trimmedLine then findTopTitle rest
      else
        let isNonTitle :=
          existsb (fun pattern => test pattern trimmedLine)
            nonTitlePatterns in
        if negb isNonTitle && (15 <? Z.of_nat (length trimmedLine))
        then Some trimmedLine
        else findTopTitle rest
  end.

Record TopMatter := { tmTitle : option str; tmAuthor : option str }.

Definition topTitleError : str :=
  lit "Could not automatically determine the post title. Check the document for a clear title at the top.".

Definition parseTopMatter (rawText : str) : Result TopMatter :=
  let lines := splitLines rawText in
  let title := findTopTitle lines in
  let author :=
    match List.find (fun line => startsWith (lit "By Dr.") (trim line))
            lines with
    | Some authorLine =>
        if isEmpty authorLine then None else Some (trim authorLine)
    | None => None
    end in
  if missing title then Throw topTitleError
  else Return {| tmTitle := title; tmAuthor := author |}.

Definition seoBlockStartMarkers : list str :=
  [lit "SEO & Meta Details for Blog Post:"; lit "Meta Title:";
   lit "Blog Post:"].

Definition isBlockStart (line : str) : bool :=
  existsb (fun marker => startsWith marker (trim line)) seoBlockStartMarkers.

Definition blockStartError : str :=
  lit "Could not find the start of the SEO metadata block in the document.".

Definition missingFieldsError : str :=
  lit "Found the SEO block, but it is missing " ++ [DQ] ++ lit "Slug"
  ++ [DQ] ++ lit " and/or " ++ [DQ] ++ lit "Meta Title" ++ [DQ] ++ lit ".".

(** [trimmedLine.substring(label.length).trim()] *)
Definition afterLabel (label trimmedLine : str) : str :=
  trim (substringFrom trimmedLine (Z.of_nat (length label))).

(** The body of [for (const line of seoLines)] in [parseSeoMetadata]. *)
Definition seoMetadataStep (st : SeoState) (line : str) : SeoState :=
  let trimmedLine := trim line in
  if isEmpty trimmedLine then st
  else if startsWith (lit "Meta Title:") trimmedLine then
    {| ssSlug := ssSlug st;
       ssMetaTitle := Some (afterLabel (lit "Meta Title:") trimmedLine);
       ssKeywords := ssKeywords st;
       descriptionLines := descriptionLines st;
       isParsingDescription := false |}
  else if startsWith (lit "Meta Description:") trimmedLine then
    {| ssSlug := ssSlug st; ssMetaTitle := ssMetaTitle st;
       ssKeywords := ssKeywords st;
       descriptionLines :=
         [afterLabel (lit "Meta Description:") trimmedLine];
       isParsingDescription := true |}
  else if startsWith (lit "Slug:") trimmedLine
          || startsWith (lit "Slugx:") trimmedLine
          || startsWith (lit "URL Slug:") trimmedLine then
    {| ssSlug :=
         Some (trim (substringFrom trimmedLine
                       (indexOf trimmedLine (lit ":") + 1)));
       ssMetaTitle := ssMetaTitle st; ssKeywords := ssKeywords st;
       descriptionLines := descriptionLines st;
       isParsingDescription := false |}
  else if startsWith (lit "Primary Keywords:") trimmedLine then
    {| ssSlug := ssSlug st; ssMetaTitle := ssMetaTitle st;
       ssKeywords := Some (afterLabel (lit "Primary Keywords:") trimmedLine);
       descriptionLines := descriptionLines st;
       isParsingDescription := false |}
  else if isParsingDescription st then
    {| ssSlug := ssSlug st; ssMetaTitle := ssMetaTitle st;
       ssKeywords := ssKeywords st;
       descriptionLines := descriptionLines st ++ [trimmedLine];
       isParsingDescription := true |}
  else st.

Record SeoData := {
  sdMetaTitle : option str;
  sdMetaDescription : option str;
  sdSlug : option str;
  sdKeywords : option str
}.

Definition parseSeoMetadata (rawText : str) : Result SeoData :=
  let lines := splitLines rawText in
  let seoBlockStartIndex := findIndex isBlockStart lines in
  if seoBlockStartIndex =? -1 then Throw blockStartError
  else
    let seoLines := skipn (Z.to_nat seoBlockStartIndex) lines in
    let st := fold_left seoMetadataStep seoLines seoInit in
    let metaDescription :=
      match descriptionLines st with
      | [] => None
      | ls => Some (join [SP] ls)
      end in
    if missing (ssSlug st) || missing (ssMetaTitle st)
    then Throw missingFieldsError
    else Return {| sdMetaTitle := ssMetaTitle st;
                   sdMetaDescription := metaDescription;
                   sdSlug := ssSlug st;
                   sdKeywords := ssKeywords st |}.

(** [finalParser]: one pass over all the lines, without a block start. *)
Definition authorPattern : Pattern :=
  {| alts := [lit "By Dr."]; suffix := [] |}.
Definition reviewedPattern : Pattern :=
  {| alts := [lit "Medically reviewed"]; suffix := [] |}.
Definition seoBlockStartPattern : Pattern :=
  {| alts := [lit "SEO & Meta Details"; lit "Blog Post:"; lit "Meta Data";
              lit "1. Meta Data"];
     suffix := [] |}.

Record FinalState := {
  fsData : Metadata;
  fsDescriptionLines : list str;
  fsParsing : bool
}.

Definition finalInit : FinalState :=
  {| fsData := {| title := None; author := None; slug := None;
                  metaTitle := None; metaDescription := None;
                  keywords := None |};
     fsDescriptionLines := []; fsParsing := false |}.

Definition setTitle (d : Metadata) (v : str) : Metadata :=
  {| title := Some v; author := author d; slug := slug d;
     metaTitle := metaTitle d; metaDescription := metaDescription d;
     keywords := keywords d |}.
Definition setAuthor (d : Metadata) (v : str) : Metadata :=
  {| title := title d; author := Some v; slug := slug d;
     metaTitle := metaTitle d; metaDescription := metaDescription d;
     keywords := keywords d |}.
Definition setSlug (d : Metadata) (v : str) : Metadata :=
  {| title := title d; author := author d; slug := Some v;
     metaTitle := metaTitle d; metaDescription := metaDescription d;
     keywords := keywords d |}.
Definition setMetaTitle (d : Metadata) (v : str) : Metadata :=
  {| title := title d; author := author d; slug := slug d;
     metaTitle := Some v; metaDescription := metaDescription d;
     keywords := keywords d |}.
Definition setMetaDescription (d : Metadata) (v : option str) : Metadata :=
  {| title := title d; author := author d; slug := slug d;
     metaTitle := metaTitle d; metaDescription := v;
     keywords := keywords d |}.
Definition setKeywords (d : Metadata) (v : str) : Metadata :=
  {| title := title d; author := author d; slug := slug d;
     metaTitle := metaTitle d; metaDescription := metaDescription d;
     keywords := Some v |}.

(** The body of [for (const line of lines)] in [finalParser]. *)
Definition finalStep (st : FinalState) (line : str) : FinalState :=
  let trimmedLine := trim line in
  if isEmpty trimmedLine then st
  else if test slugPattern trimmedLine then
    {| fsData := setSlug (fsData st)
                   (trim (stripMatch slugPattern trimmedLine));
       fsDescriptionLines := fsDescriptionLines st; fsParsing := false |}
  else if test metaTitlePattern trimmedLine then
    {| fsData := setMetaTitle (fsData st)
                   (trim (stripMatch metaTitlePattern trimmedLine));
       fsDescriptionLines := fsDescriptionLines st; fsParsing := false |}
  else if test metaDescriptionPattern trimmedLine then
    {| fsData := fsData st;
       fsDescriptionLines :=
         [trim (stripMatch metaDescriptionPattern trimmedLine)];
       fsParsing := true |}
  else if test keywordsPattern trimmedLine then
    {| fsData := setKeywords (fsData st)
                   (trim (stripMatch keywordsPattern trimmedLine));
       fsDescriptionLines := fsDescriptionLines st; fsParsing := false |}
  else if test authorPattern trimmedLine then
    {| fsData := setAuthor (fsData st) trimmedLine;
       fsDescriptionLines := fsDescriptionLines st;
       fsParsing := fsParsing st |}
  else if fsParsing st then
    {| fsData := fsData st;
       fsDescriptionLines := fsDescriptionLines st ++ [trimmedLine];
       fsParsing := true |}
  else if missing (title (fsData st))
          && negb (test authorPattern trimmedLine)
          && negb (test reviewedPattern trimmedLine)
          && negb (test seoBlockStartPattern trimmedLine)
          && (20 <? Z.of_nat (length trimmedLine))
          && negb (includes trimmedLine (lit ":")) then
    {| fsData := setTitle (fsData st) trimmedLine;
       fsDescriptionLines := fsDescriptionLines st;
       fsParsing := fsParsing st |}
  else st.

(** A field inside a template literal: [null] prints as the word. *)
Definition shown (field : option str) : str :=
  match field with
  | None => lit "null"
  | Some s => s
  end.

Definition seoFieldsError (data : Metadata) : str :=
  lit "Failed to find required SEO fields. Found Slug: '"
  ++ shown (slug data) ++ lit "', Meta Title: '"
  ++ shown (metaTitle data) ++ lit "'. Check the document.".

Definition noTitleError : str :=
  lit "Failed to find a suitable title for the document.".

(** The [data] object when the loop of [finalParser] is left and the
    description is assembled. *)
Definition finalData (rawText : str) : Metadata :=
  let st := fold_left finalStep (splitLines rawText) finalInit in
  match fsDescriptionLines st with
  | [] => fsData st
  | ls => setMetaDescription (fsData st) (Some (trim (join [SP] ls)))
  end.

Definition finalParser (rawText : str) : Result Metadata :=
  let data := finalData rawText in
  if missing (slug data) || missing (metaTitle data)
  then Throw (seoFieldsError data)
  else if missing (title data) then Throw noTitleError
  else Return data.

End Variants.

(** ** Further vocabulary and scenarios *)

Module Scenarios.
Import DocProcessor BodyResolver Markup Orchestrator Variants.

(** [phrase] occurs somewhere in [s], up to case. *)
Fixpoint occursCI (phrase s : str) : bool :=
  startsWithCI phrase s
  || match s with
     | [] => false
     | _ :: s' => occursCI phrase s'
     end.

(** The phrases of both link tables. *)
Definition linkPhrases : list str :=
  [lit "online prescription"; lit "online prescriptions";
   lit "doctor consultation"; lit "online doctor consultation";
   lit "certificates"].

Definition indented (line : str) : Prop :=
  exists c rest, line = c :: rest /\ isWhiteSpace c = true.

Definition trimmed (s : str) : Prop := trim s = s.

(** No label of the pattern begins with white space. *)
Definition headsNotBlank (re : Pattern) : bool :=
  forallb (fun a => match a ++ suffix re with
                    | [] => false
                    | k :: _ => negb (isWhiteSpace (canon k))
                    end) (alts re).

Definition fieldsOf (m : Metadata) : list (option str) :=
  [title m; author m; slug m; metaTitle m; metaDescription m; keywords m].

(** A line the first loop of [extractData] keeps as content once the
    title is found. *)
Definition isContentLine (line : str) : bool := negb (isByline (trim line)).

(** The thrown errors of a run, in the order of the files. *)
Definition thrownBy (processDocxFile : str -> Result PostData)
    (files : list str) : list (str * str) :=
  flat_map (fun file =>
              match processDocxFile file with
              | Throw message => [(file, message)]
              | Return _ => []
              end) files.

(** A line [parseTopMatter] can take as the title. *)
Definition isTopTitle (trimmedLine : str) : bool :=
  negb (isEmpty trimmedLine)
  && negb (startsWithCI (lit "By Dr. Gurbakhshish") trimmedLine)
  && negb (startsWithCI (lit "Medically reviewed") trimmedLine)
  && (15 <? Z.of_nat (length trimmedLine)).

Definition isTopByline (line : str) : bool :=
  startsWith (lit "By Dr.") (trim line).

(** The labels [parseSeoMetadata] knows, and the lines it takes up into
    a description after its label line: the non-blank lines up to the
    next labelled line, trimmed. *)
Definition labelPrefixes : list str :=
  [lit "Meta Title:"; lit "Meta Description:"; lit "Slug:"; lit "Slugx:";
   lit "URL Slug:"; lit "Primary Keywords:"].

Definition isLabelled (line : str) : bool :=
  existsb (fun label => startsWith label (trim line)) labelPrefixes.

Definition isDescriptionLabel (line : str) : bool :=
  startsWith (lit "Meta Description:") (trim line).

Fixpoint captured (tail : list str) : list str :=
  match tail with
  | [] => []
  | l :: rest =>
      if isLabelled l then []
      else if isEmpty (trim l) then captured rest
      else trim l :: captured rest
  end.

Definition COLON : N := 58%N.

Definition indentedDoc : str :=
  [SP; SP] ++ lit "A sufficiently long article title here" ++ [LF]
  ++ [SP; SP] ++ lit "Slug: my-slug" ++ [LF]
  ++ [SP; SP] ++ lit "Meta Title: My Meta".

Definition markerFirst : str := lit "Blog Post: How to Renew a Prescription
A sufficiently long article title here
Slug: my-slug
Meta Title: My Meta".

Definition emptySlug : str := lit "A sufficiently long article title here
Slug:
Meta Title: My Meta".

Definition plainHtml : str := lit "<p>Drink water and rest well.</p>".

Definition noMarkerHtml : str := lit "<h1>My Title</h1><p>Body text.</p>".

Definition emptyWorld : World :=
  {| database := {| blogs := ∅; nextId := 1%N |};
     docDirectory := [lit "a.docx"; lit "b.docx"];
     sentDirectory := []; console := []; errorLog := [] |}.

(** Both files yield the same post. *)
Definition sameSlugProcessor (file : str) : Result PostData :=
  Return samplePost.

(** [a.docx] cannot be read, [b.docx] yields a post. *)
Definition failingProcessor (file : str) : Result PostData :=
  if bool_decide (file = lit "a.docx")
  then Throw (lit "Slug could not be found for file: a.docx")
  else Return otherPost.

Definition twoDescriptions : str := lit "A sufficiently long article title here
Meta Title: My Meta
Meta Description: first draft
Slug: my-slug
Meta Description: final text
wrapped here".

Definition twoTopBylines : str := lit "A sufficiently long article title here
By Dr. Alice Example
By Dr. Bob Sample
Meta Title: My Meta
Slug: my-slug".

End Scenarios.
Import Scenarios.

(** * Properties *)

Import DocProcessor BodyResolver Markup Orchestrator Variants.

(** Closed [Forall] goals over computed lists of lines. *)
Ltac forall_by_compute :=
  match goal with
  | |- Forall ?P ?l =>
      let l' := eval vm_compute in l in
      replace l with l' by (vm_compute; reflexivity)
  end;
  repeat (first [ apply Forall_nil
                | apply Forall_cons; [vm_compute; reflexivity|] ]).

(** ** Lists and indices *)

Section ListFacts.

Context {A : Type}.
Variable p : A -> bool.

Lemma findIndexAux_first (before : list A) (s : A) (after : list A) :
  forall i,
    Forall (fun l => p l = false) before ->
    p s = true ->
    findIndexAux p (before ++ s :: after) i = Z.of_nat (i + length before).
Proof.
  induction before as [|b before IH]; intros i Hb Hs; simpl.
  - rewrite Hs. f_equal. lia.
  - inversion Hb as [|? ? Hb1 Hb2]; subst. rewrite Hb1.
    rewrite IH by assumption. f_equal. lia.
Qed.

Lemma findIndexAux_none (l : list A) :
  forall i, Forall (fun x => p x = false) l -> findIndexAux p l i = -1.
Proof.
  induction l as [|x l IH]; intros i H; simpl; [reflexivity|].
  inversion H as [|? ? H1 H2]; subst. rewrite H1. now apply IH.
Qed.

Lemma firstn_length_app (l1 l2 : list A) :
  firstn (length l1) (l1 ++ l2) = l1.
Proof. induction l1 as [|a l1 IH]; simpl; [reflexivity | now rewrite IH]. Qed.

Lemma skipn_length_app (l1 l2 : list A) :
  skipn (length l1) (l1 ++ l2) = l2.
Proof. induction l1 as [|a l1 IH]; simpl; [reflexivity | exact IH]. Qed.

(** The last element of a list that satisfies [p] is the first one of
    the reversed list. *)
Lemma find_rev_snoc (l : list A) (x : A) :
  List.find p (rev (l ++ [x])) =
  if p x then Some x else List.find p (rev l).
Proof. rewrite rev_app_distr. reflexivity. Qed.

End ListFacts.

(** ** The two loops of [extractData] on a document with an SEO block *)

Section Block.

Variables (lines before after : list str) (start : str).
Hypothesis Hlines : lines = before ++ start :: after.
Hypothesis Hbefore : Forall (fun l => test seoMarkers l = false) before.
Hypothesis Hstart : test seoMarkers start = true.

Lemma seoBlockStartIndex_first :
  seoBlockStartIndex lines = Z.of_nat (length before).
Proof.
  unfold seoBlockStartIndex, findIndex. rewrite Hlines.
  now rewrite findIndexAux_first.
Qed.

Lemma parseTop_before : parseTop lines = fold_left topStep before topInit.
Proof.
  unfold parseTop. rewrite seoBlockStartIndex_first.
  replace (Z.of_nat (length before) =? -1) with false
    by (symmetry; apply Z.eqb_neq; lia).
  rewrite Nat2Z.id, Hlines. now rewrite firstn_length_app.
Qed.

Lemma parseBlock_block : parseBlock lines = parseSeo (start :: after).
Proof.
  unfold parseBlock. rewrite seoBlockStartIndex_first.
  replace (Z.of_nat (length before) =? -1) with false
    by (symmetry; apply Z.eqb_neq; lia).
  rewrite Nat2Z.id, Hlines. now rewrite skipn_length_app.
Qed.

End Block.

Lemma parseTop_no_block (lines : list str) :
  Forall (fun l => test seoMarkers l = false) lines ->
  parseTop lines = fold_left topStep lines topInit
  /\ parseBlock lines = seoInit.
Proof.
  intros H. unfold parseTop, parseBlock, seoBlockStartIndex, findIndex.
  rewrite findIndexAux_none by assumption. simpl.
  rewrite Nat2Z.id, firstn_all. split; reflexivity.
Qed.

(** ** The first loop: title and author *)

Lemma topStep_found (st : TopState) (l : str) :
  titleFound st = true ->
  titleFound (topStep st l) = true /\ tsTitle (topStep st l) = tsTitle st.
Proof.
  intros H. unfold topStep. rewrite H. simpl.
  destruct (test bylinePattern (trim l)); simpl; auto.
Qed.

Lemma fold_topStep_found (l : list str) :
  forall st, titleFound st = true ->
    titleFound (fold_left topStep l st) = true
    /\ tsTitle (fold_left topStep l st) = tsTitle st.
Proof.
  induction l as [|x l IH]; intros st H; simpl; [auto|].
  destruct (topStep_found st x H) as [H1 H2].
  destruct (IH _ H1) as [H3 H4]. split; congruence.
Qed.

Lemma fold_topStep_title (l : list str) :
  forall st, titleFound st = false ->
    tsTitle (fold_left topStep l st) =
    match List.find isTitleLine (List.map trim l) with
    | Some t => Some t
    | None => tsTitle st
    end.
Proof.
  induction l as [|x l IH]; intros st H; simpl; [reflexivity|].
  unfold isTitleLine at 1.
  unfold topStep at 2. rewrite H. simpl.
  destruct (test bylinePattern (trim x)); simpl.
  - rewrite andb_false_r. simpl. now rewrite IH.
  - rewrite andb_true_r.
    destruct (20 <? Z.of_nat (length (trim x))); simpl.
    + destruct (includes (trim x) (lit "Medically reviewed")); simpl.
      * now rewrite IH.
      * now destruct (fold_topStep_found l
          {| tsAuthor := tsAuthor st; tsTitle := Some (trim x);
             titleFound := true; contentLines := contentLines st |} eq_refl).
    + now rewrite IH.
Qed.

(** A title is only ever stored together with the flag. *)
Lemma fold_topStep_flag (l : list str) :
  forall st,
    (tsTitle st <> None -> titleFound st = true) ->
    tsTitle (fold_left topStep l st) <> None ->
    titleFound (fold_left topStep l st) = true.
Proof.
  induction l as [|x l IH]; intros st H H2; simpl in *; [auto|].
  apply IH; [|exact H2]. unfold topStep.
  destruct (test bylinePattern (trim x)); simpl; [exact H|].
  destruct (titleFound st) eqn:Hf; simpl; [auto|].
  destruct (_ && _); simpl; [auto|]. now rewrite Hf.
Qed.

Lemma fold_topStep_author (l : list str) :
  forall st,
    tsAuthor (fold_left topStep l st) =
    match List.find isByline (rev (List.map trim l)) with
    | Some a => Some a
    | None => tsAuthor st
    end.
Proof.
  induction l as [|x l IH] using rev_ind; intros st; [reflexivity|].
  rewrite fold_left_app, map_app. simpl.
  rewrite find_rev_snoc. unfold isByline at 1.
  unfold topStep at 1.
  destruct (test bylinePattern (trim x)); simpl; [reflexivity|].
  destruct (_ && _); simpl; [apply IH|].
  destruct (titleFound _); simpl; apply IH.
Qed.

(** ** Validation *)

Lemma extractData_Return (rawText filePath : str) (m : Metadata) (c : str) :
  extractData rawText filePath = Return (m, c) ->
  m = collect rawText
  /\ missing (title m) = false
  /\ missing (slug m) = false
  /\ missing (metaTitle m) = false.
Proof.
  unfold extractData.
  destruct (missing (title (collect rawText))) eqn:Ht; [discriminate|].
  destruct (missing (slug (collect rawText))) eqn:Hs; [discriminate|].
  destruct (missing (metaTitle (collect rawText))) eqn:Hm; [discriminate|].
  intros H. injection H as <- _. auto.
Qed.

Lemma missing_false (field : option str) :
  missing field = false <-> exists s, field = Some s /\ s <> [].
Proof.
  split.
  - destruct field as [[|c s]|]; simpl; try discriminate.
    intros _. exists (c :: s). split; [reflexivity | discriminate].
  - intros (s & -> & Hs). destruct s; [now elim Hs | reflexivity].
Qed.

Lemma isTitleLine_nonempty (t : str) : isTitleLine t = true -> t <> [].
Proof. intros H ->. discriminate H. Qed.

Lemma firstn_le_split {A} (l : list A) (i j : nat) :
  (i <= j)%nat -> firstn j l = firstn i l ++ skipn i (firstn j l).
Proof.
  intros H. rewrite <- (firstn_skipn i (firstn j l)) at 1.
  rewrite firstn_firstn. now replace (Nat.min i j) with i by lia.
Qed.

(** C1. On a document with an SEO block, the title is the first line
    before the block start that (trimmed) is longer than 20, is no byline
    and does not contain "Medically reviewed"; once a title is stored,
    no later iteration of the loop changes it. *)
Theorem title_is_first_title_line :
  forall rawText before start after,
    linesOf rawText = before ++ start :: after ->
    Forall noMarker before ->
    test seoMarkers start = true ->
    title (collect rawText) = List.find isTitleLine (List.map trim before)
    /\ (forall filePath metadata content,
          extractData rawText filePath = Return (metadata, content) ->
          title metadata = List.find isTitleLine (List.map trim before))
    /\ (forall i j t, (i <= j)%nat ->
          tsTitle (fold_left topStep (firstn i before) topInit) = Some t ->
          tsTitle (fold_left topStep (firstn j before) topInit) = Some t).
Proof.
  intros rawText before start after Hl Hb Hs.
  assert (Ht : title (collect rawText)
               = List.find isTitleLine (List.map trim before)).
  { unfold collect; simpl.
    rewrite (parseTop_before _ _ _ _ Hl Hb Hs).
    rewrite fold_topStep_title by reflexivity.
    now destruct (List.find _ _). }
  split; [exact Ht|]. split.
  - intros f m c H. apply extractData_Return in H as (-> & _). exact Ht.
  - intros i j t Hij Hi.
    rewrite (firstn_le_split before i j Hij), fold_left_app.
    assert (Hf : titleFound (fold_left topStep (firstn i before) topInit)
                 = true).
    { apply fold_topStep_flag; [intros H; now elim H | congruence]. }
    destruct (fold_topStep_found (skipn i (firstn j before)) _ Hf) as [_ ->].
    exact Hi.
Qed.

Lemma title_is_first_title_line_witness :
  linesOf article = articleBefore ++ lit "Slug: my-slug" :: tl articleBlock
  /\ title (collect article)
     = Some (lit "A sufficiently long article title here").
Proof.
  split; [vm_compute; reflexivity|].
  rewrite (proj1 (title_is_first_title_line article articleBefore
                    (lit "Slug: my-slug") (tl articleBlock)
                    ltac:(vm_compute; reflexivity)
                    ltac:(forall_by_compute)
                    ltac:(vm_compute; reflexivity))).
  vm_compute. reflexivity.
Defined.

(** C8, as the code has it. On a document with an SEO block, the author
    is the last byline line before the block start: every byline line
    overwrites the author stored before. *)
Theorem author_is_last_byline :
  forall rawText before start after,
    linesOf rawText = before ++ start :: after ->
    Forall noMarker before ->
    test seoMarkers start = true ->
    author (collect rawText)
    = List.find isByline (rev (List.map trim before))
    /\ (forall filePath metadata content,
          extractData rawText filePath = Return (metadata, content) ->
          author metadata
          = List.find isByline (rev (List.map trim before))).
Proof.
  intros rawText before start after Hl Hb Hs.
  assert (Ha : author (collect rawText)
               = List.find isByline (rev (List.map trim before))).
  { unfold collect; simpl.
    rewrite (parseTop_before _ _ _ _ Hl Hb Hs), fold_topStep_author.
    now destruct (List.find _ _). }
  split; [exact Ha|].
  intros f m c H. apply extractData_Return in H as (-> & _). exact Ha.
Qed.

Lemma author_is_last_byline_witness :
  author (collect twoBylines) = Some (lit "By Dr. Bob Sample").
Proof.
  rewrite (proj1 (author_is_last_byline twoBylines
                    [lit "By Dr. Alice Example"; lit "By Dr. Bob Sample";
                     lit "A sufficiently long article title here"]
                    (lit "Slug: my-slug") [lit "Meta Title: My Meta"]
                    ltac:(vm_compute; reflexivity)
                    ltac:(forall_by_compute)
                    ltac:(vm_compute; reflexivity))).
  vm_compute. reflexivity.
Defined.

(** C8, as stated, fails: with two distinct byline lines before the SEO
    block the author is not the first of them. *)
Lemma author_first_byline_counterexample :
  ~ (forall rawText before start after b1 b2,
       linesOf rawText = before ++ start :: after ->
       Forall noMarker before ->
       test seoMarkers start = true ->
       In b1 (List.map trim before) -> In b2 (List.map trim before) ->
       isByline b1 = true -> isByline b2 = true -> b1 <> b2 ->
       author (collect rawText)
       = List.find isByline (List.map trim before)).
Proof.
  intros H.
  specialize (H twoBylines
                [lit "By Dr. Alice Example"; lit "By Dr. Bob Sample";
                 lit "A sufficiently long article title here"]
                (lit "Slug: my-slug") [lit "Meta Title: My Meta"]
                (lit "By Dr. Alice Example") (lit "By Dr. Bob Sample")
                ltac:(vm_compute; reflexivity)
                ltac:(forall_by_compute)
                ltac:(vm_compute; reflexivity)
                ltac:(vm_compute; auto)
                ltac:(vm_compute; auto)
                ltac:(vm_compute; reflexivity)
                ltac:(vm_compute; reflexivity)
                ltac:(vm_compute; discriminate)).
  vm_compute in H. discriminate H.
Qed.

Lemma app_lit_inj (prefix a b : str) : prefix ++ a = prefix ++ b -> a = b.
Proof. apply app_inv_head. Qed.

(** C6. Extraction returns only with a non-empty title, slug and meta
    title; a missing one throws the error of that field (title first,
    then slug, then meta title), which carries the file path; the three
    errors differ from one another; and with the three fields present
    extraction returns, whatever author and keywords are. *)
Theorem extraction_requires_title_slug_metaTitle :
  forall rawText filePath,
    (forall metadata content,
        extractData rawText filePath = Return (metadata, content) ->
        metadata = collect rawText
        /\ (exists t, title metadata = Some t /\ t <> [])
        /\ (exists s, slug metadata = Some s /\ s <> [])
        /\ (exists mt, metaTitle metadata = Some mt /\ mt <> []))
    /\ (missing (title (collect rawText)) = true ->
        extractData rawText filePath = Throw (titleError filePath))
    /\ (missing (title (collect rawText)) = false ->
        missing (slug (collect rawText)) = true ->
        extractData rawText filePath = Throw (slugError filePath))
    /\ (missing (title (collect rawText)) = false ->
        missing (slug (collect rawText)) = false ->
        missing (metaTitle (collect rawText)) = true ->
        extractData rawText filePath = Throw (metaTitleError filePath))
    /\ (missing (title (collect rawText)) = false ->
        missing (slug (collect rawText)) = false ->
        missing (metaTitle (collect rawText)) = false ->
        exists content,
          extractData rawText filePath = Return (collect rawText, content))
    /\ (forall otherPath,
          titleError filePath <> slugError otherPath
          /\ titleError filePath <> metaTitleError otherPath
          /\ slugError filePath <> metaTitleError otherPath)
    /\ (forall otherPath,
          (titleError filePath = titleError otherPath -> filePath = otherPath)
          /\ (slugError filePath = slugError otherPath -> filePath = otherPath)
          /\ (metaTitleError filePath = metaTitleError otherPath ->
              filePath = otherPath)).
Proof.
  intros rawText filePath. repeat split.
  - now apply extractData_Return in H.
  - apply extractData_Return in H as (_ & H & _). now apply missing_false.
  - apply extractData_Return in H as (_ & _ & H & _). now apply missing_false.
  - apply extractData_Return in H as (_ & _ & _ & H). now apply missing_false.
  - intros H. unfold extractData. now rewrite H.
  - intros H1 H2. unfold extractData. now rewrite H1, H2.
  - intros H1 H2 H3. unfold extractData. now rewrite H1, H2, H3.
  - intros H1 H2 H3. unfold extractData. rewrite H1, H2, H3. eauto.
  - discriminate.
  - discriminate.
  - discriminate.
  - apply app_lit_inj.
  - apply app_lit_inj.
  - apply app_lit_inj.
Qed.

(** C2, as the code has it. Without any SEO marker line the title is still
    searched among all the lines, slug and meta title stay unset, and
    extraction throws: the title error when no line qualifies as title,
    the slug error otherwise. *)
Theorem no_block_throws_title_or_slug :
  forall rawText filePath,
    Forall noMarker (linesOf rawText) ->
    title (collect rawText)
    = List.find isTitleLine (List.map trim (linesOf rawText))
    /\ slug (collect rawText) = None
    /\ metaTitle (collect rawText) = None
    /\ ((title (collect rawText) = None
         /\ extractData rawText filePath = Throw (titleError filePath))
        \/ ((exists t, title (collect rawText) = Some t)
            /\ extractData rawText filePath = Throw (slugError filePath))).
Proof.
  intros rawText filePath H.
  destruct (parseTop_no_block _ H) as [Htop Hblock].
  assert (Ht : title (collect rawText)
               = List.find isTitleLine (List.map trim (linesOf rawText))).
  { unfold collect; simpl. rewrite Htop.
    rewrite fold_topStep_title by reflexivity.
    now destruct (List.find _ _). }
  assert (Hs : slug (collect rawText) = None)
    by (unfold collect; simpl; now rewrite Hblock).
  assert (Hm : metaTitle (collect rawText) = None)
    by (unfold collect; simpl; now rewrite Hblock).
  repeat split; try assumption.
  unfold extractData. rewrite Hs.
  destruct (title (collect rawText)) as [t|] eqn:Et; simpl.
  - right. symmetry in Ht. apply find_some in Ht as [_ Ht].
    apply isTitleLine_nonempty in Ht.
    destruct t; [now elim Ht|]. simpl. split; [eauto | reflexivity].
  - left. split; reflexivity.
Qed.

Lemma no_block_throws_title_or_slug_witness :
  Forall noMarker (linesOf noBlock)
  /\ extractData noBlock fileName = Throw (slugError fileName).
Proof.
  assert (H : Forall noMarker (linesOf noBlock)) by forall_by_compute.
  split; [exact H|].
  destruct (no_block_throws_title_or_slug noBlock fileName H)
    as (_ & _ & _ & [[Ht _] | [_ Hs]]).
  - vm_compute in Ht. discriminate Ht.
  - exact Hs.
Defined.

(** C2, as stated, fails: a document without marker lines and without a
    title line throws the title error, not a slug or meta title error. *)
Lemma no_block_slug_error_counterexample :
  ~ (forall rawText filePath,
       Forall noMarker (linesOf rawText) ->
       extractData rawText filePath = Throw (slugError filePath)
       \/ extractData rawText filePath = Throw (metaTitleError filePath)).
Proof.
  intros H.
  destruct (H shortNote fileName ltac:(forall_by_compute)) as [H1 | H1];
    vm_compute in H1; discriminate H1.
Qed.

(** ** Patterns *)

Lemma startsWithCI_compatible (p q : str) :
  forall s, startsWithCI p s = true -> startsWithCI q s = true ->
    compatible p q = true.
Proof.
  revert q. induction p as [|a p IH]; intros [|b q] s Hp Hq;
    try reflexivity.
  destruct s as [|c s]; [discriminate|].
  cbn [startsWithCI compatible] in *.
  apply andb_true_iff in Hp as [Hp1 Hp2].
  apply andb_true_iff in Hq as [Hq1 Hq2].
  apply N.eqb_eq in Hp1, Hq1. apply andb_true_iff. split.
  - apply N.eqb_eq. congruence.
  - eapply IH; eassumption.
Qed.

Lemma test_true (re : Pattern) (s : str) :
  test re s = true ->
  exists a, In a (alts re) /\ startsWithCI (a ++ suffix re) s = true.
Proof.
  unfold test, matchedLabel.
  destruct (List.find _ _) as [a|] eqn:E; [|discriminate].
  intros _. apply find_some in E. eauto.
Qed.

Lemma test_false (re : Pattern) (s : str) :
  (forall a, In a (alts re) -> startsWithCI (a ++ suffix re) s = false) ->
  test re s = false.
Proof.
  intros H. unfold test, matchedLabel.
  destruct (List.find _ _) as [a|] eqn:E; [|reflexivity].
  apply find_some in E as [E1 E2]. rewrite H in E2 by assumption.
  discriminate.
Qed.

(** Patterns whose labels differ somewhere within their common length
    never match the same string. *)
Lemma test_disjoint (p q : Pattern) (s : str) :
  disjointPatterns p q = true -> test p s = true -> test q s = false.
Proof.
  intros Hd Hp. apply test_true in Hp as (a & Ha & Hp).
  apply test_false. intros b Hb.
  destruct (startsWithCI (b ++ suffix q) s) eqn:Hq; [|reflexivity].
  unfold disjointPatterns in Hd.
  rewrite forallb_forall in Hd. specialize (Hd a Ha).
  rewrite forallb_forall in Hd. specialize (Hd b Hb).
  rewrite (startsWithCI_compatible _ _ s Hp Hq) in Hd. discriminate.
Qed.

Lemma description_not_slug (l : str) :
  isMetaDescriptionLine l = true -> isSlugLine l = false.
Proof. apply test_disjoint. reflexivity. Qed.

Lemma description_not_metaTitle (l : str) :
  isMetaDescriptionLine l = true -> isMetaTitleLine l = false.
Proof. apply test_disjoint. reflexivity. Qed.

Lemma metaTitle_not_slug (l : str) :
  isMetaTitleLine l = true -> isSlugLine l = false.
Proof. apply test_disjoint. reflexivity. Qed.

Lemma keywords_not_slug (l : str) :
  isKeywordsLine l = true -> isSlugLine l = false.
Proof. apply test_disjoint. reflexivity. Qed.

Lemma keywords_not_metaTitle (l : str) :
  isKeywordsLine l = true -> isMetaTitleLine l = false.
Proof. apply test_disjoint. reflexivity. Qed.

Lemma keywords_not_description (l : str) :
  isKeywordsLine l = true -> isMetaDescriptionLine l = false.
Proof. apply test_disjoint. reflexivity. Qed.

(** ** The SEO block loop *)

Lemma seoStep_slug (st : SeoState) (l : str) :
  ssSlug (seoStep st l)
  = if isSlugLine l then Some (fieldValue slugPattern l) else ssSlug st.
Proof.
  unfold seoStep, isSlugLine, fieldValue.
  destruct (test slugPattern (trim l)); [reflexivity|].
  destruct (test metaTitlePattern (trim l)); [reflexivity|].
  destruct (test metaDescriptionPattern (trim l)); [reflexivity|].
  destruct (test keywordsPattern (trim l)); [reflexivity|].
  now destruct (isParsingDescription st).
Qed.

Lemma seoStep_metaTitle (st : SeoState) (l : str) :
  ssMetaTitle (seoStep st l)
  = if isMetaTitleLine l then Some (fieldValue metaTitlePattern l)
    else ssMetaTitle st.
Proof.
  pose proof (metaTitle_not_slug l) as H.
  unfold seoStep, isMetaTitleLine, isSlugLine, fieldValue in *.
  destruct (test metaTitlePattern (trim l)).
  - now rewrite H.
  - destruct (test slugPattern (trim l)); [reflexivity|].
    destruct (test metaDescriptionPattern (trim l)); [reflexivity|].
    destruct (test keywordsPattern (trim l)); [reflexivity|].
    now destruct (isParsingDescription st).
Qed.

Lemma seoStep_keywords (st : SeoState) (l : str) :
  ssKeywords (seoStep st l)
  = if isKeywordsLine l then Some (fieldValue keywordsPattern l)
    else ssKeywords st.
Proof.
  pose proof (keywords_not_slug l) as H1.
  pose proof (keywords_not_metaTitle l) as H2.
  pose proof (keywords_not_description l) as H3.
  unfold seoStep, isKeywordsLine, isSlugLine, isMetaTitleLine,
    isMetaDescriptionLine, fieldValue in *.
  destruct (test keywordsPattern (trim l)).
  - now rewrite H1, H2, H3.
  - destruct (test slugPattern (trim l)); [reflexivity|].
    destruct (test metaTitlePattern (trim l)); [reflexivity|].
    destruct (test metaDescriptionPattern (trim l)); [reflexivity|].
    now destruct (isParsingDescription st).
Qed.

(** A Meta Description line appends its value and opens the capture. *)
Lemma seoStep_description (st : SeoState) (l : str) :
  isMetaDescriptionLine l = true ->
  descriptionLines (seoStep st l)
  = descriptionLines st ++ [fieldValue metaDescriptionPattern l]
  /\ isParsingDescription (seoStep st l) = true.
Proof.
  intros H.
  pose proof (description_not_slug l H) as H1.
  pose proof (description_not_metaTitle l H) as H2.
  unfold seoStep, isMetaDescriptionLine, isSlugLine, isMetaTitleLine,
    fieldValue in *.
  rewrite H, H1, H2. split; reflexivity.
Qed.

(** While the capture is open, a line that is no field line is appended. *)
Lemma seoStep_continuation (st : SeoState) (l : str) :
  isFieldLine l = false -> isParsingDescription st = true ->
  descriptionLines (seoStep st l) = descriptionLines st ++ [trim l]
  /\ isParsingDescription (seoStep st l) = true.
Proof.
  unfold isFieldLine. intros H Hp.
  apply orb_false_iff in H as [H H4]. apply orb_false_iff in H as [H H3].
  apply orb_false_iff in H as [H1 H2].
  unfold seoStep, isSlugLine, isMetaTitleLine, isMetaDescriptionLine,
    isKeywordsLine in *.
  rewrite H1, H2, H3, H4, Hp. split; reflexivity.
Qed.

(** Any other field line closes the capture and leaves the description. *)
Lemma seoStep_closing (st : SeoState) (l : str) :
  isSlugLine l || isMetaTitleLine l || isKeywordsLine l = true ->
  descriptionLines (seoStep st l) = descriptionLines st
  /\ isParsingDescription (seoStep st l) = false.
Proof.
  intros H.
  pose proof (keywords_not_description l) as H3.
  unfold seoStep, isSlugLine, isMetaTitleLine, isMetaDescriptionLine,
    isKeywordsLine in *.
  destruct (test slugPattern (trim l)); [split; reflexivity|].
  destruct (test metaTitlePattern (trim l)); [split; reflexivity|].
  simpl in H. rewrite H in *. rewrite H3 by reflexivity.
  split; reflexivity.
Qed.

(** With the capture closed, only a Meta Description line can change the
    description. *)
Lemma seoStep_idle (st : SeoState) (l : str) :
  isMetaDescriptionLine l = false -> isParsingDescription st = false ->
  descriptionLines (seoStep st l) = descriptionLines st
  /\ isParsingDescription (seoStep st l) = false.
Proof.
  intros H Hp. unfold seoStep, isMetaDescriptionLine in *.
  destruct (test slugPattern (trim l)); [split; reflexivity|].
  destruct (test metaTitlePattern (trim l)); [split; reflexivity|].
  rewrite H.
  destruct (test keywordsPattern (trim l)); [split; reflexivity|].
  rewrite Hp. split; [reflexivity | exact Hp].
Qed.

Lemma fold_seoStep_idle (ls : list str) :
  forall st,
    Forall (fun l => isMetaDescriptionLine l = false) ls ->
    isParsingDescription st = false ->
    descriptionLines (fold_left seoStep ls st) = descriptionLines st
    /\ isParsingDescription (fold_left seoStep ls st) = false.
Proof.
  induction ls as [|l ls IH]; intros st H Hp; simpl; [auto|].
  inversion H as [|? ? H1 H2]; subst.
  destruct (seoStep_idle st l H1 Hp) as [E1 E2].
  destruct (IH _ H2 E2) as [E3 E4]. split; congruence.
Qed.

Lemma fold_seoStep_continuation (ls : list str) :
  forall st,
    Forall (fun l => isFieldLine l = false) ls ->
    isParsingDescription st = true ->
    descriptionLines (fold_left seoStep ls st)
    = descriptionLines st ++ List.map trim ls
    /\ isParsingDescription (fold_left seoStep ls st) = true.
Proof.
  induction ls as [|l ls IH]; intros st H Hp; simpl.
  - now rewrite app_nil_r.
  - inversion H as [|? ? H1 H2]; subst.
    destruct (seoStep_continuation st l H1 Hp) as [E1 E2].
    destruct (IH _ H2 E2) as [E3 E4]. rewrite E3, E1, <- app_assoc.
    split; [reflexivity | exact E4].
Qed.

(** The description only ever grows at its end. *)
Lemma seoStep_extends (st : SeoState) (l : str) :
  exists more, descriptionLines (seoStep st l) = descriptionLines st ++ more.
Proof.
  unfold seoStep.
  destruct (test slugPattern (trim l));
    [exists []; simpl; now rewrite app_nil_r|].
  destruct (test metaTitlePattern (trim l));
    [exists []; simpl; now rewrite app_nil_r|].
  destruct (test metaDescriptionPattern (trim l)); [simpl; eauto|].
  destruct (test keywordsPattern (trim l));
    [exists []; simpl; now rewrite app_nil_r|].
  destruct (isParsingDescription st); [simpl; eauto|].
  exists []. now rewrite app_nil_r.
Qed.

Lemma fold_seoStep_extends (ls : list str) :
  forall st, exists more,
    descriptionLines (fold_left seoStep ls st) = descriptionLines st ++ more.
Proof.
  induction ls as [|l ls IH]; intros st; simpl.
  - exists []. now rewrite app_nil_r.
  - destruct (IH (seoStep st l)) as [m1 E1].
    destruct (seoStep_extends st l) as [m2 E2].
    exists (m2 ++ m1). now rewrite E1, E2, <- app_assoc.
Qed.

Lemma fold_seoStep_last (ls : list str) :
  forall st,
    ssSlug (fold_left seoStep ls st)
    = match lastValue isSlugLine slugPattern ls with
      | Some v => Some v | None => ssSlug st end
    /\ ssMetaTitle (fold_left seoStep ls st)
      = match lastValue isMetaTitleLine metaTitlePattern ls with
        | Some v => Some v | None => ssMetaTitle st end
    /\ ssKeywords (fold_left seoStep ls st)
      = match lastValue isKeywordsLine keywordsPattern ls with
        | Some v => Some v | None => ssKeywords st end.
Proof.
  induction ls as [|l ls IH] using rev_ind; intros st.
  - repeat split; reflexivity.
  - rewrite fold_left_app. simpl. unfold lastValue.
    rewrite !find_rev_snoc.
    rewrite seoStep_slug, seoStep_metaTitle, seoStep_keywords.
    destruct (IH st) as (E1 & E2 & E3). unfold lastValue in *.
    destruct (isSlugLine l), (isMetaTitleLine l), (isKeywordsLine l);
      repeat split; assumption || reflexivity.
Qed.

(** ** Trimming and joining *)

Lemma trimStart_suffix (s : str) : exists ws, s = ws ++ trimStart s.
Proof.
  induction s as [|c s [ws IH]]; [now exists []|]. simpl.
  destruct (isWhiteSpace c).
  - exists (c :: ws). simpl. now rewrite <- IH.
  - now exists [].
Qed.

Lemma trimEnd_prefix (s : str) : exists ws, s = trimEnd s ++ ws.
Proof.
  unfold trimEnd. destruct (trimStart_suffix (rev s)) as [ws H].
  exists (rev ws). rewrite <- rev_app_distr, <- H. now rewrite rev_involutive.
Qed.

Lemma trimStart_noWsStart (s : str) : noWsStart (trimStart s) = true.
Proof.
  induction s as [|c s IH]; [reflexivity|]. simpl.
  destruct (isWhiteSpace c) eqn:E; [exact IH|]. simpl. now rewrite E.
Qed.

Lemma trimStart_fixed (s : str) : noWsStart s = true -> trimStart s = s.
Proof.
  destruct s as [|c s]; [reflexivity|]. simpl.
  now destruct (isWhiteSpace c).
Qed.

Lemma trim_fixed (s : str) :
  noWsStart s = true -> noWsStart (rev s) = true -> trim s = s.
Proof.
  intros H1 H2. unfold trim, trimEnd.
  rewrite (trimStart_fixed s H1), (trimStart_fixed _ H2).
  apply rev_involutive.
Qed.

Lemma trim_noWsEnd (s : str) : noWsStart (rev (trim s)) = true.
Proof.
  unfold trim, trimEnd. rewrite rev_involutive. apply trimStart_noWsStart.
Qed.

Lemma trim_noWsStart (s : str) : noWsStart (trim s) = true.
Proof.
  unfold trim. pose proof (trimStart_noWsStart s) as H.
  destruct (trimEnd_prefix (trimStart s)) as [ws E].
  destruct (trimEnd (trimStart s)) as [|c t]; [reflexivity|].
  rewrite E in H. exact H.
Qed.

Lemma trim_In (s : str) (c : N) : In c (trim s) -> In c s.
Proof.
  unfold trim. intros H.
  destruct (trimEnd_prefix (trimStart s)) as [w1 E1].
  destruct (trimStart_suffix s) as [w2 E2].
  rewrite E2. apply in_or_app. right.
  rewrite E1. apply in_or_app. now left.
Qed.

Lemma skipn_In {A} (n : nat) (l : list A) (x : A) :
  In x (skipn n l) -> In x l.
Proof.
  intros H. rewrite <- (firstn_skipn n l). apply in_or_app. now right.
Qed.

Lemma stripMatch_In (re : Pattern) (s : str) (c : N) :
  In c (stripMatch re s) -> In c s.
Proof.
  unfold stripMatch. destruct (matchedLabel re s); [apply skipn_In | auto].
Qed.

Lemma noWsStart_app (a b : str) :
  a <> [] -> noWsStart a = true -> noWsStart (a ++ b) = true.
Proof. destruct a; [congruence | auto]. Qed.

(** A space-joined list of trimmed, non-empty pieces is left alone by
    [trim]. *)
Lemma join_noWsStart (v : str) (cs : list str) :
  v <> [] -> noWsStart v = true -> noWsStart (join [SP] (v :: cs)) = true.
Proof.
  intros Hv H. destruct cs as [|c cs]; [exact H|].
  change (noWsStart (v ++ [SP] ++ join [SP] (c :: cs)) = true).
  now apply noWsStart_app.
Qed.

Lemma join_nonempty (c : str) (cs : list str) :
  c <> [] -> join [SP] (c :: cs) <> [].
Proof.
  intros Hc. destruct cs as [|c' cs]; [exact Hc|].
  change (c ++ [SP] ++ join [SP] (c' :: cs) <> []).
  destruct c; [congruence | discriminate].
Qed.

Lemma join_noWsEnd (cs : list str) :
  forall v,
    noWsStart (rev v) = true ->
    Forall (fun c => c <> [] /\ noWsStart (rev c) = true) cs ->
    noWsStart (rev (join [SP] (v :: cs))) = true.
Proof.
  induction cs as [|c cs IH]; intros v Hv H; [exact Hv|].
  inversion H as [|? ? [H1 H2] H3]; subst.
  change (noWsStart (rev (v ++ [SP] ++ join [SP] (c :: cs))) = true).
  rewrite !rev_app_distr, <- app_assoc.
  apply noWsStart_app; [|now apply IH].
  intros E. apply (f_equal (@rev N)) in E. rewrite rev_involutive in E.
  now apply (join_nonempty c cs H1).
Qed.

Lemma trim_join (w : str) (cs : list str) :
  trim w <> [] ->
  Forall (fun c => trim c <> []) cs ->
  trim (join [SP] (trim w :: List.map trim cs))
  = join [SP] (trim w :: List.map trim cs).
Proof.
  intros Hw H. apply trim_fixed.
  - apply join_noWsStart; [exact Hw | apply trim_noWsStart].
  - apply join_noWsEnd; [apply trim_noWsEnd|].
    induction H as [|c cs H1 H2 IH]; constructor; [|exact IH].
    split; [exact H1 | apply trim_noWsEnd].
Qed.

(** ** Line feeds *)

Lemma splitLines_noLF (s : str) : Forall noLF (splitLines s).
Proof.
  induction s as [|c s IH]; simpl.
  - constructor; [intros [] | constructor].
  - destruct (c =? LF)%N eqn:E.
    + constructor; [intros [] | exact IH].
    + destruct (splitLines s) as [|l ls]; inversion IH; subst;
        constructor; try assumption.
      * intros [H | []]. apply N.eqb_neq in E. congruence.
      * intros [H | H]; [apply N.eqb_neq in E; congruence | contradiction].
Qed.

Lemma linesOf_noLF (rawText : str) : Forall noLF (linesOf rawText).
Proof.
  unfold linesOf. pose proof (splitLines_noLF rawText) as H.
  induction H as [|l ls H1 H2 IH]; simpl; [constructor|].
  destruct (negb _); [constructor|]; assumption.
Qed.

Lemma linesOf_nonblank (rawText line : str) :
  In line (linesOf rawText) -> trim line <> [].
Proof.
  unfold linesOf. intros H. apply filter_In in H as [_ H].
  intros E. rewrite E in H. discriminate H.
Qed.

Lemma seoStep_noLF (st : SeoState) (l : str) :
  noLF l -> Forall noLF (descriptionLines st) ->
  Forall noLF (descriptionLines (seoStep st l)).
Proof.
  intros Hl H. unfold seoStep.
  destruct (test slugPattern (trim l)); [exact H|].
  destruct (test metaTitlePattern (trim l)); [exact H|].
  destruct (test metaDescriptionPattern (trim l)).
  { simpl. apply Forall_app. split; [exact H|]. constructor; [|constructor].
    intros E. apply Hl.
    eapply trim_In, stripMatch_In, trim_In, E. }
  destruct (test keywordsPattern (trim l)); [exact H|].
  destruct (isParsingDescription st); [|exact H].
  simpl. apply Forall_app. split; [exact H|]. constructor; [|constructor].
  intros E. apply Hl. now apply trim_In.
Qed.

Lemma fold_seoStep_noLF (ls : list str) :
  forall st, Forall noLF ls -> Forall noLF (descriptionLines st) ->
    Forall noLF (descriptionLines (fold_left seoStep ls st)).
Proof.
  induction ls as [|l ls IH]; intros st H Hst; simpl; [exact Hst|].
  inversion H; subst. apply IH; [assumption|]. now apply seoStep_noLF.
Qed.

Lemma join_noLF (ps : list str) : Forall noLF ps -> noLF (join [SP] ps).
Proof.
  induction 1 as [|p ps H1 H2 IH]; [intros []|].
  destruct ps as [|q ps]; [exact H1|].
  change (noLF (p ++ [SP] ++ join [SP] (q :: ps))).
  intros E. apply in_app_or in E as [E | E]; [now apply H1|].
  apply in_app_or in E as [[E | []] | E]; [discriminate E | now apply IH].
Qed.

Lemma skipn_Forall {A} (P : A -> Prop) (n : nat) (l : list A) :
  Forall P l -> Forall P (skipn n l).
Proof.
  rewrite !Forall_forall. intros H x Hx. apply H. eapply skipn_In, Hx.
Qed.

(** The assembled description never contains a line feed. *)
Lemma metaDescription_noLF (rawText d : str) :
  metaDescription (collect rawText) = Some d -> noLF d.
Proof.
  unfold collect; simpl. unfold assembleDescription.
  destruct (descriptionLines _) as [|x xs] eqn:E; [discriminate|].
  assert (Hj : noLF (join [SP] (x :: xs))).
  { apply join_noLF. rewrite <- E.
    unfold parseBlock. destruct (_ =? -1); [constructor|].
    apply fold_seoStep_noLF; [|constructor].
    apply skipn_Forall, linesOf_noLF. }
  intros H. injection H as <-. intros Hin. apply Hj. now apply trim_In.
Qed.

(** ** The assembled fields of a document with an SEO block *)

Section BlockFields.

Variables (rawText : str) (before seoLines : list str) (start : str).
Hypothesis Hlines : linesOf rawText = before ++ seoLines.
Hypothesis Hbefore : Forall noMarker before.
Hypothesis Hhead : hd_error seoLines = Some start.
Hypothesis Hstart : test seoMarkers start = true.

Lemma parseBlock_seoLines : parseBlock (linesOf rawText) = parseSeo seoLines.
Proof.
  destruct seoLines as [|s after] eqn:E; [discriminate|].
  injection Hhead as ->.
  exact (parseBlock_block _ _ _ _ Hlines Hbefore Hstart).
Qed.

Lemma collect_block :
  slug (collect rawText) = ssSlug (parseSeo seoLines)
  /\ metaTitle (collect rawText) = ssMetaTitle (parseSeo seoLines)
  /\ keywords (collect rawText) = ssKeywords (parseSeo seoLines)
  /\ metaDescription (collect rawText)
     = assembleDescription (descriptionLines (parseSeo seoLines)).
Proof.
  unfold collect; cbn [slug metaTitle keywords metaDescription].
  rewrite parseBlock_seoLines. repeat split; reflexivity.
Qed.

End BlockFields.

(** The description collected from a block with one Meta Description
    line, its continuation lines and whatever closes the capture. *)
Lemma parseSeo_wrapped (pre : list str) (md : str) (conts rest : list str) :
  Forall (fun l => isMetaDescriptionLine l = false) (pre ++ rest) ->
  isMetaDescriptionLine md = true ->
  Forall (fun l => isFieldLine l = false) conts ->
  closesCapture rest = true ->
  descriptionLines (parseSeo (pre ++ md :: conts ++ rest))
  = fieldValue metaDescriptionPattern md :: List.map trim conts.
Proof.
  intros Hpr Hmd Hc Hr. apply Forall_app in Hpr as [Hpre Hrest].
  unfold parseSeo. rewrite fold_left_app. simpl. rewrite fold_left_app.
  destruct (fold_seoStep_idle pre seoInit Hpre eq_refl) as [E1 P1].
  destruct (seoStep_description (fold_left seoStep pre seoInit) md Hmd)
    as [E2 P2].
  destruct (fold_seoStep_continuation conts _ Hc P2) as [E3 P3].
  rewrite E2, E1 in E3. simpl in E3.
  destruct rest as [|r rest]; [exact E3|]. simpl.
  destruct (seoStep_closing
              (fold_left seoStep conts
                 (seoStep (fold_left seoStep pre seoInit) md)) r Hr)
    as [E4 P4].
  inversion Hrest as [|? ? _ Hrest']; subst.
  destruct (fold_seoStep_idle rest _ Hrest' P4) as [E5 _].
  now rewrite E5, E4.
Qed.

(** C3. A Meta Description that wraps: with one Meta Description line
    [md] in the SEO block, followed by continuation lines [conts] (lines
    matching none of the four field patterns) up to the end of the block
    or the next field line, the assembled description is the value of
    [md] and the trimmed continuation lines, joined by single spaces (and
    trimmed as a whole, which changes nothing when the value on the label
    line is not empty); it contains no line feed.  In particular
    "Meta Description: Part one." followed by "continued sentence."
    gives "Part one. continued sentence.". *)
Theorem wrapped_description_is_space_joined :
  (forall rawText before seoLines start pre md conts rest,
      linesOf rawText = before ++ seoLines ->
      Forall noMarker before ->
      hd_error seoLines = Some start ->
      test seoMarkers start = true ->
      seoLines = pre ++ md :: conts ++ rest ->
      Forall (fun l => isMetaDescriptionLine l = false) (pre ++ rest) ->
      isMetaDescriptionLine md = true ->
      Forall (fun l => isFieldLine l = false) conts ->
      closesCapture rest = true ->
      metaDescription (collect rawText)
      = Some (trim (join [SP] (fieldValue metaDescriptionPattern md
                               :: List.map trim conts)))
      /\ (fieldValue metaDescriptionPattern md <> [] ->
          metaDescription (collect rawText)
          = Some (join [SP] (fieldValue metaDescriptionPattern md
                             :: List.map trim conts)))
      /\ (forall d, metaDescription (collect rawText) = Some d -> noLF d))
  /\ metaDescription (collect article)
     = Some (lit "Part one. continued sentence.").
Proof.
  split; [|vm_compute; reflexivity].
  intros rawText before seoLines start pre md conts rest
    Hl Hb Hh Hs Hseo Hpr Hmd Hc Hr.
  destruct (collect_block _ _ _ _ Hl Hb Hh Hs) as (_ & _ & _ & Hd).
  rewrite Hseo, (parseSeo_wrapped _ _ _ _ Hpr Hmd Hc Hr) in Hd.
  unfold assembleDescription in Hd. split; [exact Hd|]. split.
  - intros Hv. rewrite Hd. f_equal. unfold fieldValue in *.
    apply trim_join; [exact Hv|].
    apply Forall_forall. intros c Hin.
    apply (linesOf_nonblank rawText). rewrite Hl, Hseo.
    apply in_or_app. right. apply in_or_app. right. right.
    apply in_or_app. now left.
  - intros d. apply metaDescription_noLF.
Qed.

Lemma wrapped_description_is_space_joined_witness :
  linesOf article = articleBefore ++ articleBlock
  /\ metaDescription (collect article)
     = Some (join [SP] [lit "Part one."; lit "continued sentence."]).
Proof.
  split; [vm_compute; reflexivity|].
  refine (proj1 (proj2 (proj1 wrapped_description_is_space_joined
            article articleBefore articleBlock (lit "Slug: my-slug")
            [lit "Slug: my-slug"; lit "Meta Title: My Meta"]
            (lit "Meta Description: Part one.")
            [lit "continued sentence."]
            [lit "Primary Keywords: a, b"]
            _ _ _ _ _ _ _ _ _)) _);
    try (vm_compute; reflexivity); try forall_by_compute.
  vm_compute. discriminate.
Defined.

(** C10. In the SEO block a repeated Slug, Meta Title or Primary Keywords
    line overwrites: the field holds the value of the last line of its
    kind.  A repeated Meta Description line is appended to the lines
    collected so far, which stay in place. *)
Theorem repeated_field_last_wins_description_appends :
  (forall rawText before seoLines start,
      linesOf rawText = before ++ seoLines ->
      Forall noMarker before ->
      hd_error seoLines = Some start ->
      test seoMarkers start = true ->
      slug (collect rawText) = lastValue isSlugLine slugPattern seoLines
      /\ metaTitle (collect rawText)
         = lastValue isMetaTitleLine metaTitlePattern seoLines
      /\ keywords (collect rawText)
         = lastValue isKeywordsLine keywordsPattern seoLines
      /\ (forall earlier md later,
            seoLines = earlier ++ md :: later ->
            isMetaDescriptionLine md = true ->
            exists more,
              descriptionLines (parseSeo seoLines)
              = descriptionLines (parseSeo earlier)
                ++ fieldValue metaDescriptionPattern md :: more)
      /\ metaDescription (collect rawText)
         = assembleDescription (descriptionLines (parseSeo seoLines)))
  /\ (slug (collect repeated) = Some (lit "second")
      /\ metaTitle (collect repeated) = Some (lit "Second")
      /\ keywords (collect repeated) = Some (lit "k2")
      /\ metaDescription (collect repeated) = Some (lit "one two")).
Proof.
  split; [|vm_compute; repeat split; reflexivity].
  intros rawText before seoLines start Hl Hb Hh Hs.
  destruct (collect_block _ _ _ _ Hl Hb Hh Hs) as (E1 & E2 & E3 & E4).
  destruct (fold_seoStep_last seoLines seoInit) as (L1 & L2 & L3).
  unfold parseSeo in *. rewrite E1, E2, E3, L1, L2, L3.
  repeat split.
  - now destruct (lastValue isSlugLine slugPattern seoLines).
  - now destruct (lastValue isMetaTitleLine metaTitlePattern seoLines).
  - now destruct (lastValue isKeywordsLine keywordsPattern seoLines).
  - intros earlier md later -> Hmd.
    rewrite fold_left_app. simpl.
    destruct (seoStep_description (fold_left seoStep earlier seoInit) md Hmd)
      as [Ed _].
    destruct (fold_seoStep_extends later
                (seoStep (fold_left seoStep earlier seoInit) md))
      as [more Em].
    exists more. now rewrite Em, Ed, <- app_assoc.
  - exact E4.
Qed.

Lemma repeated_field_last_wins_description_appends_witness :
  linesOf repeated
  = [lit "A sufficiently long article title here"] ++ repeatedBlock
  /\ slug (collect repeated)
     = Some (fieldValue slugPattern (lit "Slug: second")).
Proof.
  split; [vm_compute; reflexivity|].
  rewrite (proj1 (proj1 repeated_field_last_wins_description_appends
             repeated [lit "A sufficiently long article title here"]
             repeatedBlock (lit "Slug: first")
             ltac:(vm_compute; reflexivity)
             ltac:(forall_by_compute)
             ltac:(vm_compute; reflexivity)
             ltac:(vm_compute; reflexivity))).
  vm_compute. reflexivity.
Defined.

Lemma extraction_requires_title_slug_metaTitle_witness :
  author (collect bare) = None
  /\ keywords (collect bare) = None
  /\ exists content,
       extractData bare fileName = Return (collect bare, content).
Proof.
  split; [vm_compute; reflexivity|]. split; [vm_compute; reflexivity|].
  destruct (extraction_requires_title_slug_metaTitle bare fileName)
    as (_ & _ & _ & _ & H & _).
  apply H; vm_compute; reflexivity.
Defined.

(** ** Searching for a substring *)

Lemma startsWith_app (p s : str) :
  startsWith p s = true <-> exists post, s = p ++ post.
Proof.
  revert s. induction p as [|a p IH]; intros s; simpl.
  - split; eauto.
  - destruct s as [|b s].
    + split; [discriminate | intros [post H]; discriminate H].
    + rewrite andb_true_iff, N.eqb_eq, IH. split.
      * intros [-> [post ->]]. eauto.
      * intros [post H]. injection H as -> ->. eauto.
Qed.

Lemma indexOfAux_found (needle s : str) :
  forall i, indexOfAux needle s i <> -1 <-> occursIn needle s.
Proof.
  induction s as [|c s IH]; intros i; simpl.
  - destruct (startsWith needle []) eqn:E.
    + split; [|lia]. intros _. apply startsWith_app in E as [post E].
      exists [], post. exact E.
    + split; [congruence|]. intros (pre & post & H).
      symmetry in H. apply app_eq_nil in H as [-> H].
      apply app_eq_nil in H as [-> _]. discriminate E.
  - destruct (startsWith needle (c :: s)) eqn:E.
    + split; [|lia]. intros _. apply startsWith_app in E as [post E].
      exists [], post. exact E.
    + rewrite IH. split.
      * intros (pre & post & ->). exists (c :: pre), post. reflexivity.
      * intros (pre & post & H). destruct pre as [|c' pre].
        -- simpl in H. assert (startsWith needle (c :: s) = true)
             by (apply startsWith_app; eauto). congruence.
        -- injection H as -> ->. exists pre, post. reflexivity.
Qed.

Lemma indexOf_found (s needle : str) :
  indexOf s needle <> -1 <-> occursIn needle s.
Proof. apply indexOfAux_found. Qed.

Lemma indexOf_absent (s needle : str) :
  indexOf s needle = -1 <-> ~ occursIn needle s.
Proof.
  rewrite <- indexOf_found. split; [tauto|].
  destruct (Z.eq_dec (indexOf s needle) (-1)); tauto.
Qed.

(** ** Body boundaries *)

(** C4. On the sample HTML with title "My Title" the body is
    "<p>Body text.</p>": it starts right behind the closing [</h1>] of
    the title element and ends where the [<p>] of the "Meta Title:"
    marker opens. *)
Theorem resolveBody_sample :
  resolveBody renderedHtml (lit "My Title") = Return (lit "<p>Body text.</p>")
  /\ contentStart renderedHtml (lit "My Title")
     = Return (indexOf renderedHtml (lit "</h1>")
               + Z.of_nat (length (lit "</h1>")))
  /\ scanEndMarkers renderedHtml 17 endMarkers
     = trim (substring renderedHtml 17
               (indexOf renderedHtml (lit "<p>Meta Title:")))
  /\ resolveBodyFinal renderedHtml (lit "My Title")
     = Return (lit "<p>Body text.</p>").
Proof. vm_compute. repeat split; reflexivity. Qed.

Lemma resolveBody_nonempty (html title body : str) :
  resolveBody html title = Return body -> body <> [].
Proof.
  unfold resolveBody. destruct (contentStart html title); [discriminate|].
  destruct (scanEndMarkers html value endMarkers) as [|c cs] eqn:E; simpl.
  - destruct (fallbackContent html value); simpl; [discriminate|].
    intros H. injection H as <-. discriminate.
  - intros H. injection H as <-. discriminate.
Qed.

(** C7. When the title does not occur in the HTML, body resolution throws
    its start-of-content error; and whenever it returns, the body is not
    the empty string. *)
Theorem resolveBody_title_absent :
  forall html title,
    ~ occursIn title html ->
    resolveBody html title = Throw startError
    /\ resolveBodyFinal html title = Throw titleNotInHtml
    /\ (forall anyTitle body,
          resolveBody html anyTitle = Return body -> body <> []).
Proof.
  intros html title H. apply indexOf_absent in H.
  unfold resolveBody, contentStart, resolveBodyFinal. rewrite H. simpl.
  repeat split. apply resolveBody_nonempty.
Qed.

Lemma resolveBody_title_absent_witness :
  resolveBody renderedHtml (lit "Another Title") = Throw startError.
Proof.
  apply (resolveBody_title_absent renderedHtml (lit "Another Title")).
  apply indexOf_absent. vm_compute. reflexivity.
Defined.

(** ** Markup *)

(** C5 at its failing input. The post-processor is not idempotent on
    "<p>certificates</p>": the first run links the word, and the second
    run wraps the same word inside the [href] of that link.  A single run
    already rewrites the [href] of an anchor the document brought along. *)
Theorem postProcess_twice_differs :
  postProcess certificatesHtml internalLinks
  = lit "<p>"
    ++ ctaAnchor (lit "https://medicly.com.au/certificates")
         (lit "certificates")
    ++ lit "</p>"
  /\ postProcess (postProcess certificatesHtml internalLinks) internalLinks
     = lit "<p>"
       ++ ctaAnchor
            (lit "https://medicly.com.au/"
             ++ ctaAnchor (lit "https://medicly.com.au/certificates")
                  (lit "certificates"))
            (lit "certificates")
       ++ lit "</p>"
  /\ postProcess (postProcess certificatesHtml internalLinks) internalLinks
     <> postProcess certificatesHtml internalLinks
  /\ postProcessHtml (postProcessHtml certificatesHtml)
     <> postProcessHtml certificatesHtml
  /\ wrapLinks internalLinks linkedHtml
     = lit "<p>See "
       ++ anchor (lit "https://medicly.com.au/"
                  ++ anchor (lit "https://medicly.com.au/certificates")
                       (lit "certificates"))
            (lit "our page")
       ++ lit "</p>".
Proof. vm_compute. repeat split; try reflexivity; discriminate. Qed.

(** ** Persistence and the per-file loop *)

Section MainLoop.

Variable processDocxFile : str -> Result PostData.

Lemma processFile_console (w : World) (file : str) :
  exists more,
    console (processFile processDocxFile w file)
    = console w ++ Processing file :: more.
Proof.
  unfold processFile. destruct (processDocxFile file) as [msg|post].
  - eexists. simpl. rewrite <- app_assoc. reflexivity.
  - destruct (insertPost _ post) as [d [[id sl]|]]; simpl;
      eexists; rewrite <- ?app_assoc; reflexivity.
Qed.

Lemma processAll_console_grows (files : list str) :
  forall w, exists more,
    console (processAll processDocxFile w files) = console w ++ more.
Proof.
  induction files as [|f files IH]; intros w; simpl.
  - exists []. now rewrite app_nil_r.
  - destruct (IH (processFile processDocxFile w f)) as [m1 E1].
    destruct (processFile_console w f) as [m2 E2].
    eexists. rewrite E1, E2, <- app_assoc. reflexivity.
Qed.

(** Every file of the list is taken up, whatever happened before it. *)
Lemma processAll_takes_up_each (files : list str) :
  forall w file, In file files ->
    In (Processing file) (console (processAll processDocxFile w files)).
Proof.
  induction files as [|f files IH]; intros w file Hin; [destruct Hin|].
  destruct Hin as [-> | H]; simpl.
  - destruct (processAll_console_grows files
                (processFile processDocxFile w file)) as [m1 E1].
    destruct (processFile_console w file) as [m2 E2].
    rewrite E1, E2. apply in_or_app. left. apply in_or_app. right.
    now left.
  - now apply IH.
Qed.

End MainLoop.

(** C9. When the slug of a processed document is already stored, the
    insert changes nothing and returns no row; the loop then reports the
    document as skipped, leaves the database, both directories and the
    error log as they were, and goes on to take up every remaining
    file. *)
Theorem duplicate_slug_is_skipped :
  forall processDocxFile w file rest postData row,
    processDocxFile file = Return postData ->
    blogs (database w) !! pdSlug postData = Some row ->
    insertPost (database w) postData = (database w, None)
    /\ database (processFile processDocxFile w file) = database w
    /\ docDirectory (processFile processDocxFile w file) = docDirectory w
    /\ sentDirectory (processFile processDocxFile w file) = sentDirectory w
    /\ errorLog (processFile processDocxFile w file) = errorLog w
    /\ console (processFile processDocxFile w file)
       = console w ++ [Processing file; Skipped (pdSlug postData)]
    /\ processAll processDocxFile w (file :: rest)
       = processAll processDocxFile (processFile processDocxFile w file) rest
    /\ (forall next, In next rest ->
          In (Processing next)
             (console (processAll processDocxFile w (file :: rest)))).
Proof.
  intros process w file rest postData row Hp Hrow.
  assert (Hi : insertPost (database w) postData = (database w, None))
    by (unfold insertPost; now rewrite Hrow).
  assert (Hf : processFile process w file
               = say (say w (Processing file)) (Skipped (pdSlug postData))).
  { unfold processFile. rewrite Hp. simpl. now rewrite Hi. }
  split; [exact Hi|]. rewrite Hf.
  repeat (split; [reflexivity|]).
  split; [simpl; now rewrite <- app_assoc|].
  split; [simpl; now rewrite Hf|].
  intros next Hn.
  apply (processAll_takes_up_each process (file :: rest)). now right.
Qed.

Lemma duplicate_slug_is_skipped_witness :
  docDirectory (processFile sampleProcessor sampleWorld (lit "a.docx"))
  = [lit "a.docx"; lit "b.docx"]
  /\ sentDirectory
       (processAll sampleProcessor sampleWorld [lit "a.docx"; lit "b.docx"])
     = [lit "b.docx"].
Proof.
  split; [|vm_compute; reflexivity].
  destruct (duplicate_slug_is_skipped sampleProcessor sampleWorld
              (lit "a.docx") [lit "b.docx"] samplePost
              {| rowId := 7%N; rowData := samplePost |}
              ltac:(vm_compute; reflexivity)
              ltac:(vm_compute; reflexivity)) as (_ & _ & H & _).
  exact H.
Defined.

(** * Further properties of [extractData] *)

Lemma extractData_content (rawText filePath : str) (m : Metadata) (c : str) :
  extractData rawText filePath = Return (m, c) ->
  c = join [LF] (contentLines (parseTop (linesOf rawText))).
Proof.
  unfold extractData.
  destruct (missing (title (collect rawText))); [discriminate|].
  destruct (missing (slug (collect rawText))); [discriminate|].
  destruct (missing (metaTitle (collect rawText))); [discriminate|].
  intros H. now injection H as _ <-.
Qed.

Lemma fold_topStep_preamble (pre : list str) :
  forall st,
    Forall (fun l => isTitleLine (trim l) = false) pre ->
    titleFound st = false ->
    titleFound (fold_left topStep pre st) = false
    /\ contentLines (fold_left topStep pre st) = contentLines st.
Proof.
  induction pre as [|l pre IH]; intros st H Hf; simpl; [auto|].
  inversion H as [|? ? H1 H2]; subst.
  assert (E : titleFound (topStep st l) = false
              /\ contentLines (topStep st l) = contentLines st).
  { unfold topStep, isTitleLine in *. rewrite Hf.
    destruct (test bylinePattern (trim l)); simpl; [auto|].
    simpl in H1. rewrite andb_true_r in H1.
    destruct (20 <? Z.of_nat (length (trim l))); simpl in *; [|auto].
    rewrite H1. simpl. rewrite Hf. auto. }
  destruct E as [E1 E2]. destruct (IH _ H2 E1) as [E3 E4].
  split; congruence.
Qed.

Lemma topStep_takes_title (st : TopState) (t : str) :
  isTitleLine (trim t) = true -> titleFound st = false ->
  titleFound (topStep st t) = true
  /\ contentLines (topStep st t) = contentLines st.
Proof.
  unfold isTitleLine, topStep. intros H Hf.
  apply andb_true_iff in H as [H H3]. apply andb_true_iff in H as [H1 H2].
  apply negb_true_iff in H2. rewrite H2, Hf, H1, H3. simpl. auto.
Qed.

Lemma fold_topStep_content (post : list str) :
  forall st,
    titleFound st = true ->
    contentLines (fold_left topStep post st)
    = contentLines st ++ List.filter isContentLine post.
Proof.
  induction post as [|l post IH]; intros st Hf; simpl.
  - now rewrite app_nil_r.
  - destruct (topStep_found st l Hf) as [Hf' _]. rewrite (IH _ Hf').
    unfold isContentLine, isByline, topStep. rewrite Hf.
    destruct (test bylinePattern (trim l)); simpl; [reflexivity|].
    now rewrite <- app_assoc.
Qed.

(** The content handed on is made of the lines between the title line and
    the SEO block start, as they stand in the text (untrimmed), without
    the byline lines, joined by line feeds; what precedes the title line
    is dropped. *)
Theorem content_is_between_title_and_block :
  forall rawText before start after pre t post,
    linesOf rawText = before ++ start :: after ->
    Forall noMarker before ->
    test seoMarkers start = true ->
    before = pre ++ t :: post ->
    Forall (fun l => isTitleLine (trim l) = false) pre ->
    isTitleLine (trim t) = true ->
    contentLines (parseTop (linesOf rawText)) = List.filter isContentLine post
    /\ (forall filePath metadata content,
          extractData rawText filePath = Return (metadata, content) ->
          content = join [LF] (List.filter isContentLine post)).
Proof.
  intros rawText before start after pre t post Hl Hb Hs -> Hpre Ht.
  assert (E : contentLines (parseTop (linesOf rawText))
              = List.filter isContentLine post).
  { rewrite (parseTop_before _ _ _ _ Hl Hb Hs), fold_left_app. simpl.
    destruct (fold_topStep_preamble pre topInit Hpre eq_refl) as [F1 C1].
    destruct (topStep_takes_title _ t Ht F1) as [F2 C2].
    rewrite (fold_topStep_content post _ F2), C2, C1. reflexivity. }
  split; [exact E|]. intros f m c H.
  apply extractData_content in H. now rewrite H, E.
Qed.

Lemma content_is_between_title_and_block_witness :
  contentLines (parseTop (linesOf article))
  = [lit "First paragraph of the article body text."].
Proof.
  refine (eq_trans (proj1 (content_is_between_title_and_block article
            articleBefore (lit "Slug: my-slug") (tl articleBlock)
            [lit "Draft v2"; lit "By Dr. Alice Example";
             lit "Medically reviewed by the clinical team"]
            (lit "A sufficiently long article title here")
            [lit "First paragraph of the article body text."]
            _ _ _ _ _ _)) _);
    try (vm_compute; reflexivity).
  - forall_by_compute.
  - forall_by_compute.
Defined.

(** On a document with an SEO block, extraction returns exactly when a
    title line stands before the block and the last Slug line and the
    last Meta Title line of the block both carry a value. *)
Theorem extraction_returns_iff :
  forall rawText filePath before seoLines start,
    linesOf rawText = before ++ seoLines ->
    Forall noMarker before ->
    hd_error seoLines = Some start ->
    test seoMarkers start = true ->
    (exists metadata content,
        extractData rawText filePath = Return (metadata, content))
    <->
    ((exists t, List.find isTitleLine (List.map trim before) = Some t)
     /\ (exists s, lastValue isSlugLine slugPattern seoLines = Some s
                   /\ s <> [])
     /\ (exists mt, lastValue isMetaTitleLine metaTitlePattern seoLines
                    = Some mt /\ mt <> [])).
Proof.
  intros rawText filePath before seoLines start Hl Hb Hh Hs.
  destruct (collect_block _ _ _ _ Hl Hb Hh Hs) as (E1 & E2 & _ & _).
  destruct (fold_seoStep_last seoLines seoInit) as (L1 & L2 & _).
  unfold parseSeo in *. rewrite L1 in E1. rewrite L2 in E2.
  assert (Et : title (collect rawText)
               = List.find isTitleLine (List.map trim before)).
  { destruct seoLines as [|s after]; [discriminate|]. injection Hh as ->.
    unfold collect; simpl. rewrite (parseTop_before _ _ _ _ Hl Hb Hs).
    rewrite fold_topStep_title by reflexivity.
    now destruct (List.find _ _). }
  assert (Es : slug (collect rawText)
               = lastValue isSlugLine slugPattern seoLines)
    by (rewrite E1; destruct (lastValue isSlugLine slugPattern seoLines);
        reflexivity).
  assert (Em : metaTitle (collect rawText)
               = lastValue isMetaTitleLine metaTitlePattern seoLines)
    by (rewrite E2;
        destruct (lastValue isMetaTitleLine metaTitlePattern seoLines);
        reflexivity).
  split.
  - intros (m & c & H). apply extractData_Return in H as (-> & H1 & H2 & H3).
    apply missing_false in H1 as (t & H1 & _).
    apply missing_false in H2. apply missing_false in H3.
    rewrite <- Et, <- Es, <- Em. eauto.
  - intros ((t & Ht) & Hsl & Hmt). rewrite <- Es in Hsl. rewrite <- Em in Hmt.
    apply missing_false in Hsl. apply missing_false in Hmt.
    assert (H1 : missing (title (collect rawText)) = false).
    { apply missing_false. exists t. split; [congruence|].
      apply find_some in Ht as [_ Ht]. now apply isTitleLine_nonempty. }
    unfold extractData. rewrite H1, Hsl, Hmt. eauto.
Qed.

Lemma extraction_returns_iff_witness :
  exists metadata content,
    extractData article fileName = Return (metadata, content).
Proof.
  apply (extraction_returns_iff article fileName articleBefore articleBlock
           (lit "Slug: my-slug")
           ltac:(vm_compute; reflexivity) ltac:(forall_by_compute)
           ltac:(vm_compute; reflexivity) ltac:(vm_compute; reflexivity)).
  repeat split; eexists; vm_compute; (reflexivity || (split; [reflexivity | discriminate])).
Defined.

(** A document that opens with an SEO marker line has no line before the
    block, hence no title: extraction throws the title error, whatever
    follows. *)
Theorem marker_first_throws_title_error :
  forall rawText filePath start after,
    linesOf rawText = start :: after ->
    test seoMarkers start = true ->
    extractData rawText filePath = Throw (titleError filePath).
Proof.
  intros rawText filePath start after Hl Hs.
  unfold extractData, collect; simpl.
  rewrite (parseTop_before _ [] after start Hl (Forall_nil _) Hs).
  reflexivity.
Qed.

Lemma marker_first_throws_title_error_witness :
  extractData markerFirst fileName = Throw (titleError fileName).
Proof.
  apply (marker_first_throws_title_error markerFirst fileName
           (lit "Blog Post: How to Renew a Prescription")
           [lit "A sufficiently long article title here";
            lit "Slug: my-slug"; lit "Meta Title: My Meta"]);
    vm_compute; reflexivity.
Defined.

(** A marker line that is indented is not recognised: the markers are
    tested on the line as it stands, not on the trimmed line. *)
Lemma canon_whitespace (c : N) : isWhiteSpace c = true -> canon c = c.
Proof.
  intros H. unfold canon.
  destruct ((97 <=? c)%N && (c <=? 122)%N) eqn:E; [|reflexivity].
  exfalso. apply andb_true_iff in E as [E1 E2].
  apply N.leb_le in E1, E2. unfold isWhiteSpace in H.
  repeat (apply orb_true_iff in H as [H | H]);
    try (apply andb_true_iff in H as [H1 H2]; apply N.leb_le in H1, H2);
    try apply N.eqb_eq in H; lia.
Qed.

Lemma test_indented (re : Pattern) (c : N) (l : str) :
  headsNotBlank re = true -> isWhiteSpace c = true ->
  test re (c :: l) = false.
Proof.
  intros Hre Hc. apply test_false. intros a Ha.
  unfold headsNotBlank in Hre. rewrite forallb_forall in Hre.
  specialize (Hre a Ha). destruct (a ++ suffix re) as [|k p]; [discriminate|].
  cbn [startsWithCI]. rewrite (canon_whitespace c Hc).
  destruct (canon k =? c)%N eqn:E; [|reflexivity].
  apply N.eqb_eq in E. subst c. rewrite Hc in Hre. discriminate.
Qed.

Lemma no_block_outcome (rawText filePath : str) :
  Forall noMarker (linesOf rawText) ->
  extractData rawText filePath = Throw (titleError filePath)
  \/ extractData rawText filePath = Throw (slugError filePath).
Proof.
  intros H. destruct (parseTop_no_block _ H) as [_ Hblock].
  unfold extractData.
  destruct (missing (title (collect rawText))); [now left|]. right.
  unfold collect; simpl. now rewrite Hblock.
Qed.

(** When every line of the text is indented, no SEO block is found, even
    if the text has Slug and Meta Title lines: extraction throws the
    title error or the slug error. *)
Theorem indented_block_is_not_found :
  forall rawText filePath,
    Forall indented (linesOf rawText) ->
    seoBlockStartIndex (linesOf rawText) = -1
    /\ (extractData rawText filePath = Throw (titleError filePath)
        \/ extractData rawText filePath = Throw (slugError filePath)).
Proof.
  intros rawText filePath H.
  assert (Hn : Forall noMarker (linesOf rawText)).
  { eapply Forall_impl; [|exact H]. intros l (c & rest & -> & Hc).
    now apply test_indented. }
  split; [now apply findIndexAux_none | now apply no_block_outcome].
Qed.

Lemma indented_block_is_not_found_witness :
  extractData indentedDoc fileName = Throw (slugError fileName).
Proof.
  destruct (indented_block_is_not_found indentedDoc fileName) as [_ [H | H]].
  - replace (linesOf indentedDoc)
      with [[SP; SP] ++ lit "A sufficiently long article title here";
            [SP; SP] ++ lit "Slug: my-slug";
            [SP; SP] ++ lit "Meta Title: My Meta"]
      by (vm_compute; reflexivity).
    repeat (apply Forall_cons; [eexists _, _; split; reflexivity|]).
    apply Forall_nil.
  - vm_compute in H. discriminate H.
  - exact H.
Defined.

(** ** Shape of the extracted fields *)

Lemma trim_idempotent (s : str) : trim (trim s) = trim s.
Proof. apply trim_fixed; [apply trim_noWsStart | apply trim_noWsEnd]. Qed.

Lemma firstn_In' {A} (n : nat) (l : list A) (x : A) :
  In x (firstn n l) -> In x l.
Proof.
  intros H. rewrite <- (firstn_skipn n l). apply in_or_app. now left.
Qed.

Lemma trim_line_shape (l : str) : noLF l -> trimmed (trim l) /\ noLF (trim l).
Proof.
  intros H. split; [apply trim_idempotent|]. intros E. now apply H, trim_In.
Qed.

Lemma field_value_shape (re : Pattern) (l : str) :
  noLF l ->
  trimmed (trim (stripMatch re (trim l)))
  /\ noLF (trim (stripMatch re (trim l))).
Proof.
  intros H. split; [apply trim_idempotent|]. intros E. apply H.
  eapply trim_In, stripMatch_In, trim_In, E.
Qed.

Lemma fold_topStep_shape (ls : list str) :
  forall st,
    Forall noLF ls ->
    (forall v, tsTitle st = Some v \/ tsAuthor st = Some v ->
               trimmed v /\ noLF v) ->
    forall v,
      tsTitle (fold_left topStep ls st) = Some v
      \/ tsAuthor (fold_left topStep ls st) = Some v ->
      trimmed v /\ noLF v.
Proof.
  induction ls as [|l ls IH]; intros st H Hst; simpl; [exact Hst|].
  inversion H as [|? ? H1 H2]; subst. apply IH; [exact H2|].
  intros v. unfold topStep.
  destruct (test bylinePattern (trim l)); simpl.
  - intros [E | E]; [apply Hst; now left|].
    injection E as <-. now apply trim_line_shape.
  - destruct (_ && _); simpl.
    + intros [E | E]; [|apply Hst; now right].
      injection E as <-. now apply trim_line_shape.
    + destruct (titleFound st); simpl; apply Hst.
Qed.

Lemma fold_seoStep_shape (ls : list str) :
  forall st,
    Forall noLF ls ->
    (forall v, ssSlug st = Some v \/ ssMetaTitle st = Some v
               \/ ssKeywords st = Some v -> trimmed v /\ noLF v) ->
    forall v,
      ssSlug (fold_left seoStep ls st) = Some v
      \/ ssMetaTitle (fold_left seoStep ls st) = Some v
      \/ ssKeywords (fold_left seoStep ls st) = Some v ->
      trimmed v /\ noLF v.
Proof.
  induction ls as [|l ls IH]; intros st H Hst; simpl; [exact Hst|].
  inversion H as [|? ? H1 H2]; subst. apply IH; [exact H2|].
  intros v. unfold seoStep.
  destruct (test slugPattern (trim l)); simpl.
  { intros [E | E]; [|apply Hst; now right].
    injection E as <-. now apply field_value_shape. }
  destruct (test metaTitlePattern (trim l)); simpl.
  { intros [E | [E | E]]; [apply Hst; now left | | apply Hst; auto].
    injection E as <-. now apply field_value_shape. }
  destruct (test metaDescriptionPattern (trim l)); simpl; [apply Hst|].
  destruct (test keywordsPattern (trim l)); simpl.
  { intros [E | [E | E]]; [apply Hst; now left | apply Hst; auto |].
    injection E as <-. now apply field_value_shape. }
  destruct (isParsingDescription st); simpl; apply Hst.
Qed.

(** Every field of a returned record is trimmed (no white space at
    either end) and free of line feeds. *)
Theorem returned_fields_are_trimmed :
  forall rawText filePath metadata content v,
    extractData rawText filePath = Return (metadata, content) ->
    In (Some v) (fieldsOf metadata) ->
    trimmed v /\ noLF v.
Proof.
  intros rawText filePath m c v H Hin.
  apply extractData_Return in H as (-> & _).
  pose proof (linesOf_noLF rawText) as Hl.
  assert (Htop : forall v,
            tsTitle (parseTop (linesOf rawText)) = Some v
            \/ tsAuthor (parseTop (linesOf rawText)) = Some v ->
            trimmed v /\ noLF v).
  { unfold parseTop. apply fold_topStep_shape.
    - apply Forall_forall. intros x Hx. apply firstn_In' in Hx.
      revert x Hx. now apply Forall_forall.
    - intros w [E | E]; discriminate E. }
  assert (Hseo : forall v,
            ssSlug (parseBlock (linesOf rawText)) = Some v
            \/ ssMetaTitle (parseBlock (linesOf rawText)) = Some v
            \/ ssKeywords (parseBlock (linesOf rawText)) = Some v ->
            trimmed v /\ noLF v).
  { unfold parseBlock. destruct (_ =? -1).
    - intros w [E | [E | E]]; discriminate E.
    - apply fold_seoStep_shape; [now apply skipn_Forall|].
      intros w [E | [E | E]]; discriminate E. }
  unfold fieldsOf in Hin. simpl in Hin.
  destruct Hin as [E | [E | [E | [E | [E | [E | []]]]]]].
  - apply Htop. now left.
  - apply Htop. now right.
  - apply Hseo. now left.
  - apply Hseo. right. now left.
  - split; [|now apply (metaDescription_noLF rawText)].
    unfold collect in E; simpl in E. unfold assembleDescription in E.
    destruct (descriptionLines _); [discriminate|].
    injection E as <-. apply trim_idempotent.
  - apply Hseo. right. now right.
Qed.

Lemma returned_fields_are_trimmed_witness :
  trimmed (lit "Part one. continued sentence.").
Proof.
  apply (returned_fields_are_trimmed article fileName
           (collect article)
           (lit "First paragraph of the article body text.")
           (lit "Part one. continued sentence."));
    vm_compute; [reflexivity | tauto].
Defined.

(** * Further properties of the markup post-processing *)

Lemma replaceAllAux_no_match (matchAt : str -> str -> option (nat * str))
    (s : str) :
  forall before,
    (forall b pre t, s = pre ++ t -> matchAt b t = None) ->
    replaceAllAux matchAt before s 0 = s.
Proof.
  induction s as [|c s IH]; intros before H; simpl.
  - now rewrite (H before [] [] eq_refl).
  - rewrite (H before [] (c :: s) eq_refl). f_equal. apply IH.
    intros b pre t ->. apply (H b (c :: pre)). reflexivity.
Qed.

Lemma occursCI_suffix (phrase s : str) :
  occursCI phrase s = false ->
  forall pre t, s = pre ++ t -> startsWithCI phrase t = false.
Proof.
  induction s as [|c s IH]; intros H pre t E.
  - symmetry in E. apply app_eq_nil in E as [_ ->].
    simpl in H. now apply orb_false_iff in H as [H _].
  - cbn [occursCI] in H. apply orb_false_iff in H as [H1 H2].
    destruct pre as [|c' pre]; simpl in E.
    + now subst t.
    + injection E as _ E. now apply (IH H2 pre).
Qed.

Lemma linkPhrase_absent (url html phrase : str) :
  occursCI phrase html = false -> linkPhrase url html phrase = html.
Proof.
  intros H. unfold linkPhrase, replaceAll.
  apply replaceAllAux_no_match. intros b pre t E.
  unfold phraseMatchesAt. rewrite (occursCI_suffix _ _ H pre t E).
  now rewrite andb_false_r.
Qed.

Lemma linkText_absent (html : str) (link : str * str) :
  occursCI (fst link) html = false -> linkText html link = html.
Proof.
  intros H. unfold linkText, replaceAll.
  apply replaceAllAux_no_match. intros b pre t E.
  unfold phraseMatchesAt. rewrite (occursCI_suffix _ _ H pre t E).
  now rewrite andb_false_r.
Qed.

Lemma matchLiteral_chars (p : str) (q : list (option N)) :
  forall t r, matchLiteral (chars p ++ q) t = Some r ->
              startsWith p t = true.
Proof.
  induction p as [|a p IH]; intros t r H; [reflexivity|].
  destruct t as [|b t]; [discriminate|]. simpl in *.
  destruct (a =? b)%N; [|discriminate]. simpl. eapply IH, H.
Qed.

Lemma tagAt_absent (p : str) (q : list (option N)) (html : str) :
  ~ occursIn p html ->
  replaceAll (fun _ s => tagAt (chars p ++ q) s) html = html.
Proof.
  intros H. apply replaceAllAux_no_match. intros _ pre t E.
  unfold tagAt. destruct (matchLiteral (chars p ++ q) t) as [r|] eqn:M;
    [|reflexivity].
  exfalso. apply H. apply matchLiteral_chars in M.
  apply startsWith_app in M as [post ->]. exists pre, post. exact E.
Qed.

(** An HTML text in which none of the configured phrases occurs (in any
    case) and no anchor opens is returned as it is, by both variants of
    the post-processor. *)
Theorem text_without_phrases_is_unchanged :
  forall html,
    Forall (fun phrase => occursCI phrase html = false) linkPhrases ->
    ~ occursIn (lit "<a href=") html ->
    postProcess html internalLinks = html /\ postProcessHtml html = html.
Proof.
  intros html Hp Ha. unfold linkPhrases in Hp.
  repeat match goal with
         | H : Forall _ (_ :: _) |- _ =>
             let H1 := fresh "P" in
             let H2 := fresh "F" in
             inversion H as [|? ? H1 H2]; subst; clear H
         end.
  split.
  - unfold postProcess, wrapLinks, internalLinks.
    cbn [fold_left phrases url].
    repeat rewrite (linkPhrase_absent _ html) by assumption.
    unfold tagCta, ctaPrefix. now apply tagAt_absent.
  - unfold postProcessHtml, internalLinksHtml. cbn [fold_left].
    repeat rewrite (linkText_absent html) by assumption.
    unfold strongPrefix.
    change (lit "<p><strong><a href=")
      with (lit "<p><strong>" ++ lit "<a href=").
    apply tagAt_absent. intros (pre & post & E). apply Ha.
    exists (pre ++ lit "<p><strong>"), post.
    rewrite E, <- !app_assoc. reflexivity.
Qed.

Lemma text_without_phrases_is_unchanged_witness :
  postProcess plainHtml internalLinks = plainHtml.
Proof.
  assert (H1 : Forall (fun phrase => occursCI phrase plainHtml = false)
                 linkPhrases).
  { unfold linkPhrases.
    repeat (apply Forall_cons; [vm_compute; reflexivity|]). apply Forall_nil. }
  assert (H2 : ~ occursIn (lit "<a href=") plainHtml).
  { apply indexOf_absent. vm_compute. reflexivity. }
  exact (proj1 (text_without_phrases_is_unchanged plainHtml H1 H2)).
Defined.

(** * Further properties of the body boundaries *)

Lemma occursIn_trans (a b c : str) :
  occursIn a b -> occursIn b c -> occursIn a c.
Proof.
  intros (p1 & q1 & ->) (p2 & q2 & ->).
  exists (p2 ++ p1), (q1 ++ q2). now rewrite <- !app_assoc.
Qed.

Lemma occursIn_firstn_skipn (s : str) (n k : nat) :
  occursIn (firstn n (skipn k s)) s.
Proof.
  exists (firstn k s), (skipn n (skipn k s)).
  now rewrite firstn_skipn, firstn_skipn.
Qed.

Lemma occursIn_skipn (s : str) (k : nat) : occursIn (skipn k s) s.
Proof. exists (firstn k s), []. now rewrite app_nil_r, firstn_skipn. Qed.

Lemma occursIn_trim (s : str) : occursIn (trim s) s.
Proof.
  unfold trim. destruct (trimStart_suffix s) as [w1 E1].
  destruct (trimEnd_prefix (trimStart s)) as [w2 E2].
  exists w1, w2. now rewrite <- E2.
Qed.

Lemma occursIn_trim_substring (s : str) (a b : Z) :
  occursIn (trim (substring s a b)) s.
Proof.
  eapply occursIn_trans; [apply occursIn_trim|].
  apply occursIn_firstn_skipn.
Qed.

Lemma scanEndMarkers_shape (html : str) (k : Z) (markers : list str) :
  scanEndMarkers html k markers = []
  \/ exists e, scanEndMarkers html k markers = trim (substring html k e).
Proof.
  induction markers as [|m ms IH]; simpl; [now left|].
  destruct (_ >? k); [|exact IH].
  destruct (negb _); [right; eauto | exact IH].
Qed.

Lemma fallbackContent_shape (html : str) (k : Z) :
  fallbackContent html k = []
  \/ exists e, fallbackContent html k = trim (substring html k e).
Proof.
  unfold fallbackContent. destruct (_ >? k); [|now left].
  destruct (negb _); [right; eauto | now left].
Qed.

(** Whatever body is returned is cut out of the HTML: it is a contiguous,
    non-empty piece of it without white space at either end. *)
Theorem body_is_a_trimmed_piece_of_the_html :
  forall html title body,
    resolveBody html title = Return body
    \/ resolveBodyFinal html title = Return body ->
    occursIn body html /\ trimmed body /\ body <> [].
Proof.
  intros html title body [H | H].
  - assert (Hne := resolveBody_nonempty _ _ _ H).
    unfold resolveBody in H.
    destruct (contentStart html title) as [|k]; [discriminate|].
    destruct (scanEndMarkers_shape html k endMarkers) as [E | [e E]];
      rewrite E in H; simpl in H.
    + destruct (fallbackContent_shape html k) as [F | [e F]];
        rewrite F in H; simpl in H; [discriminate|].
      destruct (isEmpty _); [discriminate|]. injection H as <-.
      repeat split; [apply occursIn_trim_substring
                    | apply trim_idempotent | exact Hne].
    + destruct (isEmpty _) eqn:Ee.
      * destruct (fallbackContent_shape html k) as [F | [e' F]];
          rewrite F in H; simpl in H; [discriminate|].
        destruct (isEmpty (trim (substring html k e')));
          [discriminate|]. injection H as <-.
        repeat split; [apply occursIn_trim_substring
                      | apply trim_idempotent | exact Hne].
      * injection H as <-.
        repeat split; [apply occursIn_trim_substring
                      | apply trim_idempotent | exact Hne].
  - unfold resolveBodyFinal in H.
    destruct (negb (indexOf html title =? -1)); [|discriminate].
    match type of H with
    | (if isEmpty (trim (substringFrom ?h ?k)) then _ else _) = _ =>
        assert (Hh : occursIn h html);
        [|destruct (trim (substringFrom h k)) as [|c cs] eqn:E;
          [discriminate|]]
    end.
    + destruct (negb (_ =? -1)); [|exists [], []; now rewrite app_nil_r].
      destruct (negb (_ =? -1)); [|exists [], []; now rewrite app_nil_r].
      apply occursIn_firstn_skipn.
    + simpl in H. injection H as <-. rewrite <- E.
      repeat split.
      * eapply occursIn_trans; [apply occursIn_trim|].
        eapply occursIn_trans; [apply occursIn_skipn | exact Hh].
      * apply trim_idempotent.
      * rewrite E. discriminate.
Qed.

Lemma body_is_a_trimmed_piece_of_the_html_witness :
  occursIn (lit "<p>Body text.</p>") renderedHtml.
Proof.
  apply (body_is_a_trimmed_piece_of_the_html renderedHtml (lit "My Title")).
  left. vm_compute. reflexivity.
Defined.

Lemma indexOfAux_range (needle s : str) :
  forall i,
    indexOfAux needle s i = -1
    \/ (Z.of_nat i <= indexOfAux needle s i <= Z.of_nat (i + length s)
        /\ (needle <> [] ->
            indexOfAux needle s i < Z.of_nat (i + length s))).
Proof.
  induction s as [|c s IH]; intros i; simpl.
  - destruct needle as [|a needle]; simpl; [|now left].
    right. split; [lia|]. intros H. now elim H.
  - destruct (startsWith needle (c :: s)).
    + right. split; lia.
    + destruct (IH (S i)) as [E | [E1 E2]]; [now left|].
      right. split; [lia|]. intros H. specialize (E2 H). lia.
Qed.

Lemma indexOfFrom_range (s needle : str) (from : Z) :
  indexOfFrom s needle from = -1
  \/ (Z.of_nat (clamp s from) <= indexOfFrom s needle from
      <= Z.of_nat (length s)
      /\ (needle <> [] -> indexOfFrom s needle from < Z.of_nat (length s))).
Proof.
  unfold indexOfFrom.
  assert (Hk : (clamp s from + length (skipn (clamp s from) s)
                = length s)%nat).
  { rewrite length_skipn. unfold clamp. lia. }
  destruct (indexOfAux_range needle (skipn (clamp s from) s) (clamp s from))
    as [E | [E1 E2]]; [now left|].
  rewrite Hk in *. right. split; [lia | exact E2].
Qed.

Lemma clamp_inside (s : str) (i : Z) :
  0 <= i <= Z.of_nat (length s) -> Z.of_nat (clamp s i) = i.
Proof. unfold clamp. lia. Qed.

Lemma clamp_lower (s : str) (i j : Z) :
  0 <= j <= i -> j <= Z.of_nat (length s) -> j <= Z.of_nat (clamp s i).
Proof. unfold clamp. lia. Qed.

(** The start of the body never lies before the place where the title
    was found, and never beyond the end of the HTML. *)
Theorem contentStart_is_within_the_html :
  forall html title k,
    contentStart html title = Return k ->
    0 <= indexOf html title <= k /\ k <= Z.of_nat (length html).
Proof.
  intros html title k. unfold contentStart.
  destruct (indexOfFrom_range html title 0) as [E | [[E1 E2] _]];
    fold (indexOf html title) in *.
  { rewrite E. discriminate. }
  assert (H0 : 0 <= indexOf html title) by lia.
  destruct (negb (indexOf html title =? -1)); [|discriminate].
  set (from := indexOf html title + Z.of_nat (length title)).
  destruct (indexOfFrom_range html (lit "</") from) as [C | [[C1 C2] _]].
  { rewrite C. simpl. intros H. injection H as <-. lia. }
  assert (Hc : indexOf html title <= indexOfFrom html (lit "</") from).
  { etransitivity; [|exact C1]. apply clamp_lower; unfold from; lia. }
  destruct (negb (indexOfFrom html (lit "</") from =? -1)).
  - destruct (indexOfFrom_range html (lit ">")
                (indexOfFrom html (lit "</") from))
      as [G | [[G1 G2] G3]].
    + rewrite G. simpl. intros H. injection H as <-. lia.
    + rewrite clamp_inside in G1 by lia.
      specialize (G3 ltac:(discriminate)).
      destruct (negb (_ =? -1)); intros H; injection H as <-; lia.
  - intros H. injection H as <-. lia.
Qed.

Lemma contentStart_is_within_the_html_witness :
  0 <= indexOf renderedHtml (lit "My Title") <= 17
  /\ 17 <= Z.of_nat (length renderedHtml).
Proof.
  apply (contentStart_is_within_the_html renderedHtml (lit "My Title") 17).
  vm_compute. reflexivity.
Defined.

Lemma lastIndexOfAux_absent (needle s : str) :
  forall i from acc,
    ~ occursIn needle s -> lastIndexOfAux needle s i from acc = acc.
Proof.
  induction s as [|c s IH]; intros i from acc H; simpl.
  - destruct (startsWith needle []) eqn:E; [|now rewrite andb_false_r].
    exfalso. apply H. apply startsWith_app in E as [post E].
    exists [], post. exact E.
  - destruct (startsWith needle (c :: s)) eqn:E.
    + exfalso. apply H. apply startsWith_app in E as [post E].
      exists [], post. exact E.
    + rewrite andb_false_r. apply IH. intros (pre & post & ->).
      apply H. exists (c :: pre), post. reflexivity.
Qed.

Lemma scanEndMarkers_absent (html : str) (k : Z) (markers : list str) :
  -1 <= k ->
  Forall (fun marker => ~ occursIn marker html) markers ->
  scanEndMarkers html k markers = [].
Proof.
  intros Hk H. induction H as [|m ms H1 H2 IH]; simpl; [reflexivity|].
  unfold lastIndexOf. rewrite (lastIndexOfAux_absent _ _ _ _ _ H1).
  replace (-1 >? k) with false
    by (symmetry; rewrite Z.gtb_ltb; apply Z.ltb_ge; lia).
  exact IH.
Qed.

(** When the title is in the HTML but none of the end markers is, the
    body cannot be delimited: resolution throws the boundary error (it
    does not fall back to the rest of the document). *)
Theorem no_end_marker_throws_boundary_error :
  forall html title,
    occursIn title html ->
    Forall (fun marker => ~ occursIn marker html) endMarkers ->
    resolveBody html title = Throw boundaryError.
Proof.
  intros html title Ht Hm. unfold resolveBody.
  destruct (contentStart html title) as [e|k] eqn:E.
  - unfold contentStart in E. apply indexOf_found in Ht.
    apply Z.eqb_neq in Ht. rewrite Ht in E. simpl in E.
    repeat (destruct (negb _) in E); discriminate E.
  - apply contentStart_is_within_the_html in E.
    rewrite scanEndMarkers_absent by (assumption || lia). simpl.
    unfold fallbackContent.
    assert (Hmt : ~ occursIn (lit "Meta Title:") html).
    { rewrite Forall_forall in Hm. apply Hm. vm_compute. tauto. }
    apply indexOf_absent in Hmt. rewrite Hmt.
    replace (-1 >? k) with false
      by (symmetry; rewrite Z.gtb_ltb; apply Z.ltb_ge; lia).
    reflexivity.
Qed.

Lemma no_end_marker_throws_boundary_error_witness :
  resolveBody noMarkerHtml (lit "My Title") = Throw boundaryError.
Proof.
  apply no_end_marker_throws_boundary_error.
  - apply indexOf_found. vm_compute. discriminate.
  - unfold endMarkers.
    repeat (apply Forall_cons;
            [apply indexOf_absent; vm_compute; reflexivity|]).
    apply Forall_nil.
Defined.

(** * Further properties of persistence and the per-file loop *)



Lemma insertPost_keeps (d : Database) (postData : PostData)
    (s : str) (row : Row) :
  blogs d !! s = Some row ->
  blogs (fst (insertPost d postData)) !! s = Some row.
Proof.
  intros H. unfold insertPost.
  destruct (blogs d !! pdSlug postData) eqn:E; simpl; [exact H|].
  rewrite lookup_insert_ne; [exact H|]. intros <-. congruence.
Qed.

Lemma processFile_keeps (process : str -> Result PostData) (w : World)
    (file s : str) (row : Row) :
  blogs (database w) !! s = Some row ->
  blogs (database (processFile process w file)) !! s = Some row.
Proof.
  intros H. unfold processFile. destruct (process file) as [msg|post].
  - exact H.
  - pose proof (insertPost_keeps (database w) post s row H) as K.
    simpl. destruct (insertPost (database w) post) as [d [[id sl]|]];
      exact K.
Qed.

(** A stored row is never overwritten or removed, neither by an insert
    nor by a whole run over any list of files. *)
Theorem stored_rows_are_kept :
  forall process w files s row,
    blogs (database w) !! s = Some row ->
    (forall postData,
        blogs (fst (insertPost (database w) postData)) !! s = Some row)
    /\ blogs (database (processAll process w files)) !! s = Some row.
Proof.
  intros process w files s row H. split.
  - intros postData. now apply insertPost_keeps.
  - revert w H. induction files as [|f files IH]; intros w H; simpl.
    + exact H.
    + apply IH. now apply processFile_keeps.
Qed.

Lemma stored_rows_are_kept_witness :
  blogs (database (processAll sampleProcessor sampleWorld
                     [lit "a.docx"; lit "b.docx"])) !! lit "my-slug"
  = Some {| rowId := 7%N; rowData := samplePost |}.
Proof.
  apply (stored_rows_are_kept sampleProcessor sampleWorld).
  vm_compute. reflexivity.
Defined.

Lemma processFile_errorLog (process : str -> Result PostData) (w : World)
    (file : str) :
  errorLog (processFile process w file)
  = errorLog w ++ thrownBy process [file].
Proof.
  unfold processFile, thrownBy. simpl.
  destruct (process file) as [msg|post]; simpl; [reflexivity|].
  destruct (insertPost (database w) post) as [d [[id sl]|]]; simpl;
    now rewrite app_nil_r.
Qed.

(** The error log of a run grows by exactly the errors thrown for its
    files, in the order of the files, whatever is stored or moved
    meanwhile; and a file whose processing throws leaves the database and
    both directories as they were. *)
Theorem thrown_errors_are_logged_in_order :
  forall process w files,
    errorLog (processAll process w files)
    = errorLog w ++ thrownBy process files
    /\ (forall file message,
          process file = Throw message ->
          database (processFile process w file) = database w
          /\ docDirectory (processFile process w file) = docDirectory w
          /\ sentDirectory (processFile process w file) = sentDirectory w).
Proof.
  intros process w files. split.
  - revert w. induction files as [|f files IH]; intros w; simpl.
    + now rewrite app_nil_r.
    + rewrite IH, processFile_errorLog. unfold thrownBy. simpl.
      rewrite app_nil_r, <- app_assoc. reflexivity.
  - intros file message H. unfold processFile. rewrite H. auto.
Qed.

Lemma thrown_errors_are_logged_in_order_witness :
  errorLog (processAll failingProcessor emptyWorld
              [lit "a.docx"; lit "b.docx"])
  = [(lit "a.docx", lit "Slug could not be found for file: a.docx")]
  /\ docDirectory (processFile failingProcessor emptyWorld (lit "a.docx"))
     = [lit "a.docx"; lit "b.docx"].
Proof.
  destruct (thrown_errors_are_logged_in_order failingProcessor emptyWorld
              [lit "a.docx"; lit "b.docx"]) as [H1 H2].
  split.
  - rewrite H1. vm_compute. reflexivity.
  - destruct (H2 (lit "a.docx")
                (lit "Slug could not be found for file: a.docx")
                ltac:(vm_compute; reflexivity)) as (_ & H & _).
    exact H.
Defined.

Lemma filter_not_in (file : str) (dir : list str) :
  ~ In file (List.filter (fun f => negb (strEqb f file)) dir).
Proof.
  intros H. apply filter_In in H as [_ H]. unfold strEqb in H.
  rewrite bool_decide_eq_true_2 in H by reflexivity. discriminate H.
Qed.

(** A document whose slug is new is stored under that slug, its file
    leaves the inbound directory for the sent directory, and nothing is
    written to the error log. *)
Theorem new_slug_is_stored_and_moved :
  forall process w file postData,
    process file = Return postData ->
    blogs (database w) !! pdSlug postData = None ->
    blogs (database (processFile process w file)) !! pdSlug postData
    = Some {| rowId := nextId (database w); rowData := postData |}
    /\ sentDirectory (processFile process w file) = sentDirectory w ++ [file]
    /\ ~ In file (docDirectory (processFile process w file))
    /\ errorLog (processFile process w file) = errorLog w
    /\ console (processFile process w file)
       = console w ++ [Processing file;
                       Success (pdSlug postData) (nextId (database w));
                       Moved file].
Proof.
  intros process w file postData Hp Hn.
  unfold processFile. rewrite Hp. unfold insertPost. simpl. rewrite Hn.
  simpl. split; [apply lookup_insert_eq|]. split; [reflexivity|].
  split; [apply filter_not_in|]. split; [reflexivity|].
  now rewrite <- !app_assoc.
Qed.

Lemma new_slug_is_stored_and_moved_witness :
  sentDirectory (processFile sampleProcessor sampleWorld (lit "b.docx"))
  = [lit "b.docx"].
Proof.
  destruct (new_slug_is_stored_and_moved sampleProcessor sampleWorld
              (lit "b.docx") otherPost
              ltac:(vm_compute; reflexivity)
              ltac:(vm_compute; reflexivity)) as (_ & H & _).
  exact H.
Defined.

Lemma processFile_stores_slug (process : str -> Result PostData)
    (w : World) (file : str) (postData : PostData) :
  process file = Return postData ->
  exists row,
    blogs (database (processFile process w file)) !! pdSlug postData
    = Some row.
Proof.
  intros Hp. unfold processFile. rewrite Hp. unfold insertPost. simpl.
  destruct (blogs (database w) !! pdSlug postData) as [row|] eqn:E; simpl.
  - eauto.
  - eexists. apply lookup_insert_eq.
Qed.

(** Two files of one run that yield the same slug: whatever happens to
    the first, the second is reported as skipped and is not moved. *)
Theorem second_file_with_same_slug_is_skipped :
  forall process w first second post1 post2,
    process first = Return post1 ->
    process second = Return post2 ->
    pdSlug post1 = pdSlug post2 ->
    sentDirectory (processAll process w [first; second])
    = sentDirectory (processFile process w first)
    /\ docDirectory (processAll process w [first; second])
       = docDirectory (processFile process w first)
    /\ database (processAll process w [first; second])
       = database (processFile process w first)
    /\ console (processAll process w [first; second])
       = console (processFile process w first)
         ++ [Processing second; Skipped (pdSlug post2)].
Proof.
  intros process w first second post1 post2 H1 H2 Hs. simpl.
  destruct (processFile_stores_slug process w first post1 H1) as [row Hr].
  rewrite Hs in Hr. set (w1 := processFile process w first) in *.
  unfold processFile at 1 2 3 4. rewrite H2. unfold insertPost. simpl.
  rewrite Hr. simpl. repeat split; try reflexivity.
  now rewrite <- app_assoc.
Qed.

Lemma second_file_with_same_slug_is_skipped_witness :
  sentDirectory (processAll sameSlugProcessor emptyWorld
                   [lit "a.docx"; lit "b.docx"])
  = [lit "a.docx"].
Proof.
  rewrite (proj1 (second_file_with_same_slug_is_skipped sameSlugProcessor
                    emptyWorld (lit "a.docx") (lit "b.docx")
                    samplePost samplePost eq_refl eq_refl eq_refl)).
  vm_compute. reflexivity.
Defined.

(** * Properties of the earlier parsers *)

Lemma single_label_test (label t : str) :
  test {| alts := [label]; suffix := [] |} t = startsWithCI label t.
Proof.
  unfold test, matchedLabel. cbn [alts suffix List.find].
  rewrite app_nil_r. now destruct (startsWithCI label t).
Qed.

Lemma findTopTitle_find (lines : list str) :
  findTopTitle lines = List.find isTopTitle (List.map trim lines).
Proof.
  induction lines as [|l lines IH]; [reflexivity|].
  cbn [findTopTitle List.map List.find]. unfold isTopTitle at 1.
  unfold nonTitlePatterns. cbn [existsb]. rewrite !single_label_test.
  destruct (isEmpty (trim l)); [exact IH|]. cbn [negb andb].
  rewrite orb_false_r, negb_orb.
  destruct (negb _ && negb _ && _); [reflexivity | exact IH].
Qed.

Lemma startsWith_nonempty (p s : str) :
  p <> [] -> startsWith p s = true -> isEmpty s = false.
Proof.
  destruct p; [congruence|]. destruct s; [discriminate | reflexivity].
Qed.

Lemma trim_nonempty_line (l : str) : isEmpty (trim l) = false -> isEmpty l = false.
Proof. destruct l; [discriminate | reflexivity]. Qed.

(** [parseTopMatter] takes the first line that can be a title (trimmed:
    non-empty, longer than 15, not opening with "By Dr. Gurbakhshish" or
    "Medically reviewed" in any case) and throws when there is none; the
    author is the first line that opens with "By Dr.", not the last. *)
Theorem parseTopMatter_takes_first_title_and_first_byline :
  forall rawText,
    (parseTopMatter rawText = Throw topTitleError
     <-> List.find isTopTitle (List.map trim (splitLines rawText)) = None)
    /\ (forall topMatter,
          parseTopMatter rawText = Return topMatter ->
          tmTitle topMatter
          = List.find isTopTitle (List.map trim (splitLines rawText))
          /\ tmAuthor topMatter
             = match List.find isTopByline (splitLines rawText) with
               | Some line => Some (trim line)
               | None => None
               end).
Proof.
  intros rawText. unfold parseTopMatter. rewrite findTopTitle_find.
  change (fun line => startsWith (lit "By Dr.") (trim line))
    with isTopByline.
  assert (Ha : match List.find isTopByline (splitLines rawText) with
               | Some authorLine =>
                   if isEmpty authorLine then None
                   else Some (trim authorLine)
               | None => None
               end
               = match List.find isTopByline (splitLines rawText) with
                 | Some line => Some (trim line)
                 | None => None
                 end).
  { destruct (List.find isTopByline (splitLines rawText)) as [line|] eqn:F;
      [|reflexivity].
    apply find_some in F as [_ F]. unfold isTopByline in F.
    apply startsWith_nonempty in F; [|discriminate].
    now rewrite (trim_nonempty_line line F). }
  rewrite Ha. clear Ha.
  set (author := match List.find isTopByline (splitLines rawText) with
                 | Some line => Some (trim line)
                 | None => None
                 end).
  destruct (List.find isTopTitle _) as [t|] eqn:E.
  - assert (Ht : missing (Some t) = false).
    { apply find_some in E as [_ E]. unfold isTopTitle in E.
      cbn [missing]. now destruct (isEmpty t). }
    rewrite Ht. split; [split; discriminate|].
    intros tm H. injection H as <-. split; reflexivity.
  - cbn [missing]. split; [split; reflexivity | discriminate].
Qed.

Lemma parseTopMatter_takes_first_title_and_first_byline_witness :
  exists topMatter,
    parseTopMatter twoTopBylines = Return topMatter
    /\ tmAuthor topMatter = Some (lit "By Dr. Alice Example").
Proof.
  destruct (parseTopMatter twoTopBylines) as [msg|tm] eqn:E;
    [vm_compute in E; discriminate E|].
  exists tm. split; [reflexivity|].
  rewrite (proj2 (proj2 (parseTopMatter_takes_first_title_and_first_byline
                           twoTopBylines) tm E)).
  vm_compute. reflexivity.
Defined.

Lemma findIndexAux_minus_one {A} (p : A -> bool) (l : list A) :
  forall i, findIndexAux p l i = -1 -> Forall (fun x => p x = false) l.
Proof.
  induction l as [|x l IH]; intros i H; [constructor|]. simpl in H.
  destruct (p x) eqn:E; [lia|]. constructor; [exact E | eapply IH, H].
Qed.

(** [parseSeoMetadata] throws its block-start error exactly when no line
    (trimmed) opens with one of its three markers; "Slug:" is none of
    them. *)
Theorem parseSeoMetadata_needs_a_block_start :
  forall rawText,
    parseSeoMetadata rawText = Throw blockStartError
    <-> Forall (fun line => isBlockStart line = false) (splitLines rawText).
Proof.
  intros rawText. unfold parseSeoMetadata. split.
  - destruct (findIndex isBlockStart (splitLines rawText) =? -1) eqn:E.
    + intros _. apply Z.eqb_eq in E. eapply findIndexAux_minus_one, E.
    + destruct (_ || _); [|discriminate]. intros H. injection H as H.
      vm_compute in H. discriminate H.
  - intros H. unfold findIndex. now rewrite findIndexAux_none.
Qed.

Lemma parseSeoMetadata_needs_a_block_start_witness :
  parseSeoMetadata (lit "Slug: my-slug") = Throw blockStartError.
Proof.
  apply parseSeoMetadata_needs_a_block_start.
  replace (splitLines (lit "Slug: my-slug")) with [lit "Slug: my-slug"]
    by (vm_compute; reflexivity).
  apply Forall_cons; [vm_compute; reflexivity | apply Forall_nil].
Defined.

Lemma startsWith_startsWithCI (p s : str) :
  startsWith p s = true -> startsWithCI p s = true.
Proof.
  revert s. induction p as [|a p IH]; intros [|b s] H;
    try reflexivity; try discriminate.
  cbn [startsWith startsWithCI] in *.
  apply andb_true_iff in H as [H1 H2]. apply N.eqb_eq in H1. subst b.
  rewrite N.eqb_refl. now apply IH.
Qed.

Lemma startsWith_exclusive (p q s : str) :
  compatible p q = false -> startsWith p s = true -> startsWith q s = false.
Proof.
  intros Hc Hp. destruct (startsWith q s) eqn:Hq; [|reflexivity].
  apply startsWith_startsWithCI in Hp, Hq.
  rewrite (startsWithCI_compatible _ _ _ Hp Hq) in Hc. discriminate.
Qed.

Lemma isLabelled_blank (l : str) : isEmpty (trim l) = true -> isLabelled l = false.
Proof.
  unfold isLabelled. intros H.
  destruct (trim l); [reflexivity | cbn [isEmpty] in H; discriminate H].
Qed.

Lemma seoMetadataStep_blank (st : SeoState) (l : str) :
  isEmpty (trim l) = true -> seoMetadataStep st l = st.
Proof. intros H. unfold seoMetadataStep. now rewrite H. Qed.

(** A Meta Description line starts the description afresh. *)
Lemma seoMetadataStep_description (st : SeoState) (l : str) :
  isDescriptionLabel l = true ->
  descriptionLines (seoMetadataStep st l)
  = [afterLabel (lit "Meta Description:") (trim l)]
  /\ isParsingDescription (seoMetadataStep st l) = true.
Proof.
  unfold isDescriptionLabel. intros H. unfold seoMetadataStep.
  rewrite (startsWith_nonempty (lit "Meta Description:") _
             ltac:(vm_compute; discriminate) H).
  rewrite (startsWith_exclusive (lit "Meta Description:") (lit "Meta Title:")
             _ eq_refl H).
  rewrite H. split; reflexivity.
Qed.

Lemma seoMetadataStep_other_label (st : SeoState) (l : str) :
  isLabelled l = true -> isDescriptionLabel l = false ->
  descriptionLines (seoMetadataStep st l) = descriptionLines st
  /\ isParsingDescription (seoMetadataStep st l) = false.
Proof.
  intros H Hd. unfold seoMetadataStep.
  destruct (isEmpty (trim l)) eqn:Eb.
  { rewrite (isLabelled_blank l Eb) in H. discriminate H. }
  unfold isLabelled, labelPrefixes, isDescriptionLabel in *.
  cbn [existsb] in H. rewrite Hd in H.
  destruct (startsWith (lit "Meta Title:") (trim l)); [split; reflexivity|].
  rewrite Hd.
  destruct (startsWith (lit "Slug:") (trim l)); [split; reflexivity|].
  destruct (startsWith (lit "Slugx:") (trim l)); [split; reflexivity|].
  destruct (startsWith (lit "URL Slug:") (trim l)); [split; reflexivity|].
  cbn [orb] in *. rewrite orb_false_r in H. rewrite H. split; reflexivity.
Qed.

Lemma seoMetadataStep_plain (st : SeoState) (l : str) :
  isLabelled l = false -> isEmpty (trim l) = false ->
  descriptionLines (seoMetadataStep st l)
  = (if isParsingDescription st then descriptionLines st ++ [trim l]
     else descriptionLines st)
  /\ isParsingDescription (seoMetadataStep st l) = isParsingDescription st.
Proof.
  intros H Hb. unfold seoMetadataStep. rewrite Hb.
  unfold isLabelled, labelPrefixes in H. cbn [existsb] in H.
  repeat (apply orb_false_iff in H as [?H H]).
  rewrite H0, H1, H2, H3, H4, H5. cbn [orb].
  destruct (isParsingDescription st) eqn:E; split; auto.
Qed.

Lemma fold_seoMetadataStep_tail (tail : list str) :
  forall st,
    Forall (fun l => isDescriptionLabel l = false) tail ->
    descriptionLines (fold_left seoMetadataStep tail st)
    = descriptionLines st
      ++ (if isParsingDescription st then captured tail else []).
Proof.
  induction tail as [|l tail IH]; intros st H; cbn [fold_left captured].
  - destruct (isParsingDescription st); now rewrite app_nil_r.
  - inversion H as [|? ? H1 H2]; subst.
    destruct (isLabelled l) eqn:El.
    + destruct (seoMetadataStep_other_label st l El H1) as [E1 E2].
      rewrite (IH _ H2), E1, E2.
      now destruct (isParsingDescription st).
    + destruct (isEmpty (trim l)) eqn:Eb.
      * rewrite (seoMetadataStep_blank st l Eb). now apply IH.
      * destruct (seoMetadataStep_plain st l El Eb) as [E1 E2].
        rewrite (IH _ H2), E1, E2.
        destruct (isParsingDescription st); [|reflexivity].
        now rewrite <- app_assoc.
Qed.

(** In [parseSeoMetadata] a later Meta Description line replaces what was
    collected before it: the description is the text of the last Meta
    Description line and of the non-blank lines after it up to the next
    labelled line, joined by single spaces. *)
Theorem parseSeoMetadata_description_restarts :
  forall rawText before start earlier md tail seoData,
    splitLines rawText = before ++ earlier ++ md :: tail ->
    Forall (fun line => isBlockStart line = false) before ->
    hd_error (earlier ++ [md]) = Some start ->
    isBlockStart start = true ->
    isDescriptionLabel md = true ->
    Forall (fun l => isDescriptionLabel l = false) tail ->
    parseSeoMetadata rawText = Return seoData ->
    sdMetaDescription seoData
    = Some (join [SP] (afterLabel (lit "Meta Description:") (trim md)
                       :: captured tail)).
Proof.
  intros rawText before start earlier md tail sd Hl Hb Hh Hs Hmd Ht.
  assert (Hsplit : exists after, earlier ++ md :: tail = start :: after).
  { destruct earlier as [|e es]; simpl in Hh; injection Hh as ->; eauto. }
  destruct Hsplit as [after Ea].
  unfold parseSeoMetadata, findIndex.
  rewrite Hl, Ea, (findIndexAux_first _ _ _ _ 0%nat Hb Hs).
  replace (Z.of_nat (0 + length before) =? -1) with false
    by (symmetry; apply Z.eqb_neq; lia).
  rewrite Nat2Z.id. cbn [Nat.add]. rewrite skipn_length_app, <- Ea.
  rewrite fold_left_app. cbn [fold_left].
  destruct (seoMetadataStep_description
              (fold_left seoMetadataStep earlier seoInit) md Hmd) as [E1 E2].
  pose proof (fold_seoMetadataStep_tail tail
                (seoMetadataStep (fold_left seoMetadataStep earlier seoInit)
                   md) Ht) as E3.
  rewrite E1, E2 in E3. cbn [app] in E3. rewrite E3.
  destruct (_ || _); [discriminate|].
  intros H. injection H as <-. reflexivity.
Qed.

Lemma parseSeoMetadata_description_restarts_witness :
  exists seoData,
    parseSeoMetadata twoDescriptions = Return seoData
    /\ sdMetaDescription seoData = Some (lit "final text wrapped here").
Proof.
  destruct (parseSeoMetadata twoDescriptions) as [msg|sd] eqn:E;
    [vm_compute in E; discriminate E|].
  exists sd. split; [reflexivity|].
  rewrite (parseSeoMetadata_description_restarts twoDescriptions
             [lit "A sufficiently long article title here"]
             (lit "Meta Title: My Meta")
             [lit "Meta Title: My Meta"; lit "Meta Description: first draft";
              lit "Slug: my-slug"]
             (lit "Meta Description: final text")
             [lit "wrapped here"] sd
             ltac:(vm_compute; reflexivity)
             ltac:(forall_by_compute)
             ltac:(vm_compute; reflexivity)
             ltac:(vm_compute; reflexivity)
             ltac:(vm_compute; reflexivity)
             ltac:(forall_by_compute)
             E).
  vm_compute. reflexivity.
Defined.

(** ** [finalParser] *)

Lemma finalStep_slug (st : FinalState) (l : str) :
  slug (fsData (finalStep st l))
  = if isSlugLine l then Some (fieldValue slugPattern l)
    else slug (fsData st).
Proof.
  unfold finalStep, isSlugLine, fieldValue.
  destruct (isEmpty (trim l)) eqn:Eb.
  { destruct (trim l); [reflexivity | discriminate Eb]. }
  destruct (test slugPattern (trim l)); [reflexivity|].
  destruct (test metaTitlePattern (trim l)); [reflexivity|].
  destruct (test metaDescriptionPattern (trim l)); [reflexivity|].
  destruct (test keywordsPattern (trim l)); [reflexivity|].
  destruct (test authorPattern (trim l)); [reflexivity|].
  destruct (fsParsing st); [reflexivity|].
  destruct (_ && _); reflexivity.
Qed.

Lemma finalStep_metaTitle (st : FinalState) (l : str) :
  metaTitle (fsData (finalStep st l))
  = if isMetaTitleLine l then Some (fieldValue metaTitlePattern l)
    else metaTitle (fsData st).
Proof.
  pose proof (metaTitle_not_slug l) as H.
  unfold finalStep, isMetaTitleLine, isSlugLine, fieldValue in *.
  destruct (isEmpty (trim l)) eqn:Eb.
  { destruct (trim l); [reflexivity | discriminate Eb]. }
  destruct (test metaTitlePattern (trim l)).
  - now rewrite H.
  - destruct (test slugPattern (trim l)); [reflexivity|].
    destruct (test metaDescriptionPattern (trim l)); [reflexivity|].
    destruct (test keywordsPattern (trim l)); [reflexivity|].
    destruct (test authorPattern (trim l)); [reflexivity|].
    destruct (fsParsing st); [reflexivity|].
    destruct (_ && _); reflexivity.
Qed.

Lemma finalStep_keywords (st : FinalState) (l : str) :
  keywords (fsData (finalStep st l))
  = if isKeywordsLine l then Some (fieldValue keywordsPattern l)
    else keywords (fsData st).
Proof.
  pose proof (keywords_not_slug l) as H1.
  pose proof (keywords_not_metaTitle l) as H2.
  pose proof (keywords_not_description l) as H3.
  unfold finalStep, isKeywordsLine, isSlugLine, isMetaTitleLine,
    isMetaDescriptionLine, fieldValue in *.
  destruct (isEmpty (trim l)) eqn:Eb.
  { destruct (trim l); [reflexivity | discriminate Eb]. }
  destruct (test keywordsPattern (trim l)).
  - now rewrite H1, H2, H3.
  - destruct (test slugPattern (trim l)); [reflexivity|].
    destruct (test metaTitlePattern (trim l)); [reflexivity|].
    destruct (test metaDescriptionPattern (trim l)); [reflexivity|].
    destruct (test authorPattern (trim l)); [reflexivity|].
    destruct (fsParsing st); [reflexivity|].
    destruct (_ && _); reflexivity.
Qed.

Lemma fold_finalStep_last (ls : list str) :
  forall st,
    slug (fsData (fold_left finalStep ls st))
    = match lastValue isSlugLine slugPattern ls with
      | Some v => Some v | None => slug (fsData st) end
    /\ metaTitle (fsData (fold_left finalStep ls st))
      = match lastValue isMetaTitleLine metaTitlePattern ls with
        | Some v => Some v | None => metaTitle (fsData st) end
    /\ keywords (fsData (fold_left finalStep ls st))
      = match lastValue isKeywordsLine keywordsPattern ls with
        | Some v => Some v | None => keywords (fsData st) end.
Proof.
  induction ls as [|l ls IH] using rev_ind; intros st.
  - repeat split; reflexivity.
  - rewrite fold_left_app. cbn [fold_left]. unfold lastValue.
    rewrite !find_rev_snoc.
    rewrite finalStep_slug, finalStep_metaTitle, finalStep_keywords.
    destruct (IH st) as (E1 & E2 & E3). unfold lastValue in *.
    destruct (isSlugLine l), (isMetaTitleLine l), (isKeywordsLine l);
      repeat split; assumption || reflexivity.
Qed.

Lemma finalData_fields (rawText : str) :
  slug (finalData rawText)
  = slug (fsData (fold_left finalStep (splitLines rawText) finalInit))
  /\ metaTitle (finalData rawText)
    = metaTitle (fsData (fold_left finalStep (splitLines rawText) finalInit))
  /\ keywords (finalData rawText)
    = keywords (fsData (fold_left finalStep (splitLines rawText) finalInit))
  /\ title (finalData rawText)
    = title (fsData (fold_left finalStep (splitLines rawText) finalInit)).
Proof.
  unfold finalData. destruct (fsDescriptionLines _); repeat split; reflexivity.
Qed.

Lemma finalParser_Return (rawText : str) (data : Metadata) :
  finalParser rawText = Return data -> data = finalData rawText.
Proof.
  unfold finalParser. destruct (_ || _); [discriminate|].
  destruct (missing _); [discriminate|]. intros H. now injection H.
Qed.

(** [finalParser] looks for no block start: slug, meta title and keywords
    are taken from the last line of their kind anywhere in the text (also
    above the title), and a returned record carries exactly these. *)
Theorem finalParser_takes_fields_anywhere :
  forall rawText,
    slug (finalData rawText)
    = lastValue isSlugLine slugPattern (splitLines rawText)
    /\ metaTitle (finalData rawText)
       = lastValue isMetaTitleLine metaTitlePattern (splitLines rawText)
    /\ keywords (finalData rawText)
       = lastValue isKeywordsLine keywordsPattern (splitLines rawText)
    /\ (forall data, finalParser rawText = Return data ->
          data = finalData rawText).
Proof.
  intros rawText.
  destruct (finalData_fields rawText) as (F1 & F2 & F3 & _).
  destruct (fold_finalStep_last (splitLines rawText) finalInit)
    as (L1 & L2 & L3).
  rewrite F1, F2, F3, L1, L2, L3.
  repeat split.
  - now destruct (lastValue isSlugLine slugPattern (splitLines rawText)).
  - now destruct (lastValue isMetaTitleLine metaTitlePattern
                    (splitLines rawText)).
  - now destruct (lastValue isKeywordsLine keywordsPattern
                    (splitLines rawText)).
  - apply finalParser_Return.
Qed.

Lemma finalStep_title (st : FinalState) (l : str) :
  (forall t, title (fsData st) = Some t ->
     includes t (lit ":") = false /\ 20 < Z.of_nat (length t)
     /\ test authorPattern t = false) ->
  forall t, title (fsData (finalStep st l)) = Some t ->
    includes t (lit ":") = false /\ 20 < Z.of_nat (length t)
    /\ test authorPattern t = false.
Proof.
  intros H t. unfold finalStep.
  destruct (isEmpty (trim l)); [apply H|].
  destruct (test slugPattern (trim l)); [apply H|].
  destruct (test metaTitlePattern (trim l)); [apply H|].
  destruct (test metaDescriptionPattern (trim l)); [apply H|].
  destruct (test keywordsPattern (trim l)); [apply H|].
  destruct (test authorPattern (trim l)) eqn:Ea; [apply H|].
  destruct (fsParsing st); [apply H|].
  destruct (_ && _) eqn:E; [|apply H].
  cbn [fsData setTitle title]. intros Ht. injection Ht as <-.
  repeat (apply andb_true_iff in E as [E ?H]).
  apply negb_true_iff in H0. apply Z.ltb_lt in H1. auto.
Qed.

Lemma fold_finalStep_title (ls : list str) :
  forall st,
    (forall t, title (fsData st) = Some t ->
       includes t (lit ":") = false /\ 20 < Z.of_nat (length t)
       /\ test authorPattern t = false) ->
    forall t, title (fsData (fold_left finalStep ls st)) = Some t ->
      includes t (lit ":") = false /\ 20 < Z.of_nat (length t)
      /\ test authorPattern t = false.
Proof.
  induction ls as [|l ls IH]; intros st H; cbn [fold_left]; [exact H|].
  apply IH. now apply finalStep_title.
Qed.

(** The title [finalParser] returns never contains a colon, is longer
    than 20 and is no byline. *)
Theorem finalParser_title_has_no_colon :
  forall rawText data t,
    finalParser rawText = Return data ->
    title data = Some t ->
    includes t (lit ":") = false
    /\ 20 < Z.of_nat (length t)
    /\ test authorPattern t = false.
Proof.
  intros rawText data t H Ht. apply finalParser_Return in H. subst data.
  destruct (finalData_fields rawText) as (_ & _ & _ & F).
  rewrite F in Ht. revert t Ht. apply fold_finalStep_title.
  intros t E. discriminate E.
Qed.

Lemma finalParser_title_has_no_colon_witness :
  includes (lit "A sufficiently long article title here") (lit ":") = false.
Proof.
  destruct (finalParser twoDescriptions) as [msg|data] eqn:E;
    [vm_compute in E; discriminate E|].
  apply (finalParser_title_has_no_colon twoDescriptions data _ E).
  apply finalParser_Return in E. rewrite E. vm_compute. reflexivity.
Defined.

Lemma finalParser_takes_fields_anywhere_witness :
  slug (finalData twoDescriptions) = Some (lit "my-slug").
Proof.
  rewrite (proj1 (finalParser_takes_fields_anywhere twoDescriptions)).
  vm_compute. reflexivity.
Defined.
